(** * White-blood-cell crop extraction ([extract.py])

    A shallow embedding of [WhiteBloodCellDetector]: the confidence and
    aspect-ratio filter, the 200x200 crop window, the naming of the crops,
    the rows of [output.csv] and the batch loop of [extract].

    Modelling conventions.
    - Python [int] is [Z].  A Python [float] is modelled by the rational it
      denotes ([Q]); the only floats the program computes with are box
      centres [(a + b) / 2] of integers, those centres plus or minus 100 and
      differences of such numbers, all of which are half-integers that binary
      floating point represents exactly, and quotients [width / height] of
      integers that are only compared with the literal [0.7].  The
      comparison of the exact quotient with [7/10] agrees with the floating
      point one for every box whose sides are below [10^15] pixels.  A
      confidence is a single-precision float, modelled by the rational it
      denotes; [box.conf < 0.35] is evaluated in single precision, so the
      cut is the single-precision float nearest to 0.35, which is
      11744051 / 33554432 (about 0.34999999404), just below 35/100.
    - A value that is either an [int] or a [float] at run time (the result of
      [max]/[min] over a float and an int) is a [pynum]; the distinction is
      visible in the text of file names and table cells ([200] against
      [200.0]).
    - The detection model, [os.listdir] and [Image.open] are the external
      world: a record [World] of functions, fixed during a run.
      [os_listdir] is what [os.listdir] returns when [extract] calls it,
      that is once the output directory is in place.  The input directory
      is read only; crops are written under the output directory.
      [os.path.exists] is false and [os.makedirs] raises for the empty
      path, the default of both directory fields; otherwise [os.makedirs],
      [image.crop], [image.save] and the writes to [output.csv] are taken to
      succeed.
    - Exceptions are explicit: a computation returns the file system it
      reached together with [Ok] or [Raise]. *)

From Stdlib Require Import ZArith QArith Qminmax Qround Qabs Lqa.
From Stdlib Require Import String List Lia.
From stdpp Require Import gmap strings pretty.

Open Scope Z_scope.

(** ** Python numbers *)

Inductive pynum :=
| PyInt (z : Z)
| PyFloat (q : Q).

Definition pyval (x : pynum) : Q :=
  match x with
  | PyInt z => inject_Z z
  | PyFloat q => q
  end.

Definition Qltb (x y : Q) : bool := negb (Qle_bool y x).

Definition py_lt (a b : pynum) : bool := Qltb (pyval a) (pyval b).

(** [max(a, b)] keeps its first argument unless the second is strictly
    larger; [min(a, b)] keeps it unless the second is strictly smaller. *)
Definition py_max (a b : pynum) : pynum := if py_lt a b then b else a.
Definition py_min (a b : pynum) : pynum := if py_lt b a then b else a.

(** [a - b]: an [int] only when both operands are. *)
Definition py_sub (a b : pynum) : pynum :=
  match a, b with
  | PyInt x, PyInt y => PyInt (x - y)
  | _, _ => PyFloat (pyval a - pyval b)
  end.

(** [int(x)] truncates towards zero. *)
Definition py_int (q : Q) : Z := Z.quot (Qnum q) (Z.pos (Qden q)).

(** ** Exceptions *)

Inductive exn :=
| ZeroDivisionError
| FileNotFoundError
| UnidentifiedImageError.

Inductive outcome (A : Type) :=
| Ok (a : A)
| Raise (e : exn).
Arguments Ok {A} a.
Arguments Raise {A} e.

Definition obind {A B} (o : outcome A) (k : A -> outcome B) : outcome B :=
  match o with
  | Ok a => k a
  | Raise e => Raise e
  end.

(** [a / b] on integers: true division. *)
Definition py_truediv (a b : Z) : outcome Q :=
  if b =? 0 then Raise ZeroDivisionError else Ok (inject_Z a / inject_Z b)%Q.

(** ** Text of numbers *)

(** [str(x)] of a float whose value is a half-integer below [10^16] in
    magnitude: [170.0], [12.5], [-0.5]. *)
Definition float_repr (q : Q) : string :=
  let t := Qfloor (Qabs q * 2) in
  (if Qltb q 0 then "-" else "") +:+ pretty (t / 2) +:+ "." +:+
  (if t mod 2 =? 0 then "0" else "5").

Definition py_str (x : pynum) : string :=
  match x with
  | PyInt z => pretty z
  | PyFloat q => float_repr q
  end.

Definition round_half_even (q : Q) : Z :=
  let f := Qfloor q in
  let r := (q - inject_Z f)%Q in
  if Qltb r (1 # 2) then f
  else if Qltb (1 # 2) r then f + 1
  else if Z.even f then f else f + 1.

Definition two_digits (n : Z) : string :=
  if n <? 10 then "0" +:+ pretty n else pretty n.

(** ["{:.2f}".format(q)]: the nearest multiple of 0.01, ties to even. *)
Definition format_2f (q : Q) : string :=
  let n := round_half_even (Qabs q * 100) in
  (if Qltb q 0 then "-" else "") +:+ pretty (n / 100) +:+ "." +:+
  two_digits (n mod 100).

(** [s.endswith(suffix)] *)
Definition endswith (s suffix : string) : bool :=
  let n := String.length s in
  let k := String.length suffix in
  (k <=? n)%nat && String.eqb (substring (n - k) k s) suffix.

(** [os.path.join(a, b)] for a relative [b]. *)
Definition path_join (a b : string) : string :=
  if String.eqb a "" || endswith a "/" then a +:+ b else a +:+ "/" +:+ b.

(** ** Detections, images, crops *)

(** One element of [result.boxes]: a confidence and the rows of [xyxy]. *)
Record Boxes := { conf : Q; xyxy : list (Q * Q * Q * Q) }.

Record Image := { image_path : string; size : Z * Z }.

(** What [image.crop(box)] cuts out: the source image and the box. *)
Record Crop := { crop_source : Image; crop_box : pynum * pynum * pynum * pynum }.

Record World := {
  os_listdir : string -> option (list string);
  Image_open : string -> option Image;
  model : Image -> list (list Boxes)
}.

(** ** The filter (lines 50 and 57-60) *)

(** The literal [0.35] as the comparison of line 50 sees it: in single
    precision, 11744051 / 2^25. *)
Definition conf_threshold : Q := 11744051 # 33554432.
Definition ratio_limit : Q := 7 # 10.

(** [(width / height < 0.7) or (height / width < 0.7)], left to right. *)
Definition too_elongated (width height : Z) : outcome bool :=
  obind (py_truediv width height) (fun r1 =>
  if Qltb r1 ratio_limit then Ok true
  else obind (py_truediv height width) (fun r2 => Ok (Qltb r2 ratio_limit))).

Definition box_width (left right : Z) : Z := Z.abs (left - right).
Definition box_height (top bottom : Z) : Z := Z.abs (top - bottom).

(** The verdict on one detection: [Ok true] when a crop is extracted,
    [Ok false] when one of the two [continue] statements is taken. *)
Definition accepts (confidence : Q) (left top right bottom : Z) : outcome bool :=
  if Qltb confidence conf_threshold then Ok false
  else obind (too_elongated (box_width left right) (box_height top bottom))
         (fun r => Ok (negb r)).

(** ** The crop window (lines 61-65) *)

Definition box_mid (left top right bottom : Z) : Q * Q :=
  ((inject_Z (right + left) / 2)%Q, (inject_Z (bottom + top) / 2)%Q).

Definition crop_window (mid : Q * Q) (sz : Z * Z)
  : pynum * pynum * pynum * pynum :=
  let left := py_max (PyFloat (fst mid - 100)) (PyInt 0) in
  let top := py_max (PyFloat (snd mid - 100)) (PyInt 0) in
  let right := py_min (PyFloat (fst mid + 100)) (PyInt (fst sz)) in
  let bottom := py_min (PyFloat (snd mid + 100)) (PyInt (snd sz)) in
  (left, top, right, bottom).

(** ** Names and rows (lines 68-73, 94-97) *)

Definition crop_filename (confidence filename : string) (mid : Q * Q)
    (region : pynum * pynum * pynum * pynum) (i : nat) : string :=
  let '(left', top', right', bottom') := region in
  confidence +:+ "_" +:+ filename +:+
  "_x_" +:+ float_repr (fst mid) +:+ "_y_" +:+ float_repr (snd mid) +:+
  "_h_" +:+ py_str (py_sub bottom' top') +:+
  "_w_" +:+ py_str (py_sub right' left') +:+
  "_result" +:+ pretty i +:+ ".jpg".

Definition csv_header : list string :=
  ["filename"; "confidence"; "center_x"; "center_y"; "height"; "width"].

(** The cells [_save_to_csv] writes, in the order of its parameters. *)
Definition csv_row (filename confidence : string) (center_x center_y : Q)
    (height width : pynum) : list string :=
  [filename; confidence; float_repr center_x; float_repr center_y;
   py_str height; py_str width].

(** ** The file system and the computations over it *)

(** Directories that exist, the image files written (by path), the rows of
    [output.csv] and the lines printed. *)
Record FS := {
  dirs : gset string;
  files : gmap string Crop;
  csv : list (list string);
  stdout : list string
}.

Definition M (A : Type) : Type := FS -> FS * outcome A.

Definition ret {A} (a : A) : M A := fun s => (s, Ok a).

Definition raise {A} (e : exn) : M A := fun s => (s, Raise e).

Definition bind {A B} (m : M A) (k : A -> M B) : M B :=
  fun s =>
    match m s with
    | (s', Ok a) => k a s'
    | (s', Raise e) => (s', Raise e)
    end.

Definition lift {A} (o : outcome A) : M A := fun s => (s, o).

Declare Scope py_scope.
Delimit Scope py_scope with py.
Notation "x <- m ;; k" := (bind m (fun x => k))
  (at level 100, m at next level, k at level 200, right associativity)
  : py_scope.
Notation "m ;; k" := (bind m (fun _ => k))
  (at level 100, k at level 200, right associativity) : py_scope.
Open Scope py_scope.

(** [for x in l: body(x)] *)
Fixpoint for_each {A} (l : list A) (body : A -> M unit) : M unit :=
  match l with
  | [] => ret tt
  | x :: l' => body x ;; for_each l' body
  end.

(** [enumerate(l)] *)
Definition enumerate {A} (l : list A) : list (nat * A) :=
  combine (seq 0 (length l)) l.

Definition print (line : string) : M unit :=
  fun s => ({| dirs := dirs s; files := files s; csv := csv s;
               stdout := stdout s ++ [line] |}, Ok tt).

(** [os.path.exists(p)]; the empty path never exists. *)
Definition path_exists (p : string) : M bool :=
  fun s => (s, Ok (negb (String.eqb p "") && bool_decide (p ∈ dirs s))).

(** [os.makedirs(p)]; the empty path cannot be created. *)
Definition makedirs (p : string) : M unit :=
  fun s =>
    if String.eqb p "" then (s, Raise FileNotFoundError)
    else ({| dirs := {[p]} ∪ dirs s; files := files s; csv := csv s;
             stdout := stdout s |}, Ok tt).

(** [image1.save(p, 'JPEG', quality=100)]: the last writer of a path wins. *)
Definition image_save (p : string) (c : Crop) : M unit :=
  fun s => ({| dirs := dirs s; files := <[p := c]> (files s); csv := csv s;
               stdout := stdout s |}, Ok tt).

(** [open('output.csv', 'w')] followed by the header row. *)
Definition csv_create : M unit :=
  fun s => ({| dirs := dirs s; files := files s; csv := [csv_header];
               stdout := stdout s |}, Ok tt).

(** [open('output.csv', 'a')] followed by one row. *)
Definition csv_append (row : list string) : M unit :=
  fun s => ({| dirs := dirs s; files := files s; csv := csv s ++ [row];
               stdout := stdout s |}, Ok tt).

(** ** The detector *)

Record Detector := {
  input_directory : string;
  output_directory : string;
  save_to_csv : bool
}.

Definition init : Detector :=
  {| input_directory := ""; output_directory := ""; save_to_csv := false |}.

Definition set_save_to_csv (d : Detector) (flag : bool) : M Detector :=
  let d' := {| input_directory := input_directory d;
               output_directory := output_directory d;
               save_to_csv := flag |} in
  (if flag then csv_create ;; print "Saving to csv file: output.csv"
   else ret tt) ;;
  ret d'.

Definition set_input_directory (d : Detector) (dir : string) : M Detector :=
  print ("Input directory set to '" +:+ dir +:+ "'") ;;
  ret {| input_directory := dir;
         output_directory := output_directory d;
         save_to_csv := save_to_csv d |}.

Definition set_output_directory (d : Detector) (dir : string) : M Detector :=
  let d' := {| input_directory := input_directory d;
               output_directory := dir;
               save_to_csv := save_to_csv d |} in
  e <- path_exists dir ;;
  (if negb e
   then print ("Creating new output directory '" +:+ dir +:+ "'") ;;
        makedirs dir
   else print ("Output directory set to '" +:+ dir +:+ "'")) ;;
  ret d'.

Definition _save_to_csv (filename confidence : string)
    (center_x center_y : Q) (height width : pynum) : M unit :=
  csv_append (csv_row filename confidence center_x center_y height width).

Section Detector.

Variable w : World.
Variable d : Detector.

(** Lines 61-73: the crop of an accepted detection. *)
Definition save_crop (image : Image) (filename : string) (i : nat)
    (box : Boxes) (left top right bottom : Z) : M unit :=
  let mid := box_mid left top right bottom in
  let '(left', top', right', bottom') := crop_window mid (size image) in
  let image1 := {| crop_source := image;
                   crop_box := (left', top', right', bottom') |} in
  let confidence := format_2f (conf box) in
  image_save
    (path_join (output_directory d)
       (crop_filename confidence filename mid (left', top', right', bottom') i))
    image1 ;;
  if save_to_csv d then
    let center_x := fst mid in
    let center_y := snd mid in
    _save_to_csv filename confidence center_x center_y
      (py_sub right' left') (py_sub bottom' top')
  else ret tt.

(** Lines 56-73: one row of [xyxy]. *)
Definition process_find (image : Image) (filename : string) (i : nat)
    (box : Boxes) (find : Q * Q * Q * Q) : M unit :=
  let '(x1, y1, x2, y2) := find in
  let left := py_int x1 in
  let top := py_int y1 in
  let right := py_int x2 in
  let bottom := py_int y2 in
  let width := box_width left right in
  let height := box_height top bottom in
  skip <- lift (too_elongated width height) ;;
  if (skip : bool) then ret tt
  else save_crop image filename i box left top right bottom.

(** Lines 50-73: one element of [result.boxes]. *)
Definition process_box (image : Image) (filename : string) (i : nat)
    (box : Boxes) : M unit :=
  if Qltb (conf box) conf_threshold then ret tt
  else for_each (xyxy box) (process_find image filename i box).

Definition image_open (image_path : string) : M Image :=
  match Image_open w image_path with
  | Some image => ret image
  | None => raise UnidentifiedImageError
  end.

Definition _process_image (image_path filename : string) : M unit :=
  image <- image_open image_path ;;
  let results := model w image in
  for_each (enumerate results) (fun '(i, result) =>
    for_each result (process_box image filename i)).

Definition listdir (dir : string) : M (list string) :=
  match os_listdir w dir with
  | Some entries => ret entries
  | None => raise FileNotFoundError
  end.

Definition image_files_of (entries : list string) : list string :=
  List.filter (fun f => endswith f ".jpg") entries.

(** Lines 89-92: the loop over the images. *)
Definition process_files (image_files : list string) : M unit :=
  for_each image_files (fun filename =>
    let image_path := path_join (input_directory d) filename in
    _process_image image_path filename).

Definition no_images_line : string :=
  "No .jpg images found in the input directory: " +:+ input_directory d.

Definition image_count_line (image_count : nat) : string :=
  "Input directory set to '" +:+ input_directory d +:+ "' with " +:+
  pretty image_count +:+ " images.".

(** Lines 76-77 *)
Definition ensure_output_directory : M unit :=
  e <- path_exists (output_directory d) ;;
  if negb e then makedirs (output_directory d) else ret tt.

Definition extract : M unit :=
  ensure_output_directory ;;
  entries <- listdir (input_directory d) ;;
  let image_files := image_files_of entries in
  let image_count := length image_files in
  if (image_count =? 0)%nat then print no_images_line
  else
    print (image_count_line image_count) ;;
    process_files image_files.

End Detector.

(** The script at the end of the file, for any directories and flag. *)
Definition session (w : World) (input output : string) (record : bool)
  : M unit :=
  d <- set_input_directory init input ;;
  d <- set_output_directory d output ;;
  d <- set_save_to_csv d record ;;
  extract w d.

Definition main (w : World) : M unit := session w "Set5" "wbc" true.

(** ** Logs of a computation *)

(** The effect of a computation that only writes crops and appends rows:
    the crops written (the last writer of a path wins) and the rows. *)
Definition add_log (F : gmap string Crop) (rows : list (list string))
    (s : FS) : FS :=
  {| dirs := dirs s; files := F ∪ files s; csv := csv s ++ rows;
     stdout := stdout s |}.

(** [tidy record m]: [m] has the same log and the same outcome from every
    file system, and appends no row unless [record] is set. *)
Definition tidy (record : bool) {A} (m : M A) : Prop :=
  exists F rows o,
    forall s, m s = (add_log F (if record then rows else []) s, o).

(** ** Example inputs *)

Definition fs_empty : FS :=
  {| dirs := ∅; files := ∅; csv := []; stdout := [] |}.

(** A world with one input directory [dir]; [entries] is its listing
    ([None] when the directory is missing) and [images] gives, for each
    path that decodes, the image size and the detections of the model. *)
Definition world_of (dir : string) (entries : option (list string))
    (images : list (string * (Z * Z * list (list Boxes)))) : World :=
  let table : gmap string (Z * Z * list (list Boxes)) := list_to_map images in
  {| os_listdir := fun p => if String.eqb p dir then entries else None;
     Image_open := fun p =>
       match table !! p with
       | Some (sz, _) => Some {| image_path := p; size := sz |}
       | None => None
       end;
     model := fun image =>
       match table !! image_path image with
       | Some (_, results) => results
       | None => []
       end |}.

Definition one_box (c : Q) (x1 y1 x2 y2 : Q) : list (list Boxes) :=
  [[ {| conf := c; xyxy := [(x1, y1, x2, y2)] |} ]].

(** The worked example: [cell01.jpg], 400 by 400, one detection. *)
Definition w_worked : World :=
  world_of "Set5" (Some ["cell01.jpg"])
    [("Set5/cell01.jpg", (400, 400, one_box (812 # 1000) 150 160 190 200))].

(** A detection close to the left border of the image. *)
Definition w_border : World :=
  world_of "Set5" (Some ["cell01.jpg"])
    [("Set5/cell01.jpg", (400, 400, one_box (812 # 1000) 10 160 50 200))].

(** Two images; the detection of the first has a box of height zero once
    its corners are truncated to integers. *)
Definition w_flat : World :=
  world_of "Set5" (Some ["a.jpg"; "b.jpg"])
    [("Set5/a.jpg",
      (400, 400, one_box (9 # 10) (103 # 10) (202 # 10) (501 # 10) (208 # 10)));
     ("Set5/b.jpg", (400, 400, one_box (812 # 1000) 150 160 190 200))].

(** The second image of [w_flat] alone. *)
Definition w_flat_rest : World :=
  world_of "Set5" (Some ["b.jpg"])
    [("Set5/b.jpg", (400, 400, one_box (812 # 1000) 150 160 190 200))].

(** Two images; the first does not decode. *)
Definition w_undecodable : World :=
  world_of "Set5" (Some ["a.jpg"; "b.jpg"])
    [("Set5/b.jpg", (400, 400, one_box (812 # 1000) 150 160 190 200))].

(** The input directory does not exist, and the output directory is not
    created inside it. *)
Definition w_missing : World := world_of "Set5" None [].

(** The input directory holds no [.jpg] entry. *)
Definition w_no_jpg : World :=
  world_of "Set5" (Some ["notes.txt"; "cell01.png"; "cell02.JPG"]) [].

(** The world [w] with the listing of every directory replaced. *)
Definition with_listing (w : World) (entries : list string) : World :=
  {| os_listdir := fun _ => Some entries;
     Image_open := Image_open w;
     model := model w |}.

(** ** The crops of a run, in order *)

(** One saved crop: its path, its content and its table row. *)
Record Saved := {
  saved_path : string;
  saved_crop : Crop;
  saved_row : list string
}.

(** What [save_crop] saves for one accepted detection. *)
Definition saved_of (d : Detector) (image : Image) (filename : string)
    (i : nat) (box : Boxes) (left top right bottom : Z) : Saved :=
  let mid := box_mid left top right bottom in
  let '(left', top', right', bottom') := crop_window mid (size image) in
  let confidence := format_2f (conf box) in
  {| saved_path :=
       path_join (output_directory d)
         (crop_filename confidence filename mid
            (left', top', right', bottom') i);
     saved_crop := {| crop_source := image;
                      crop_box := (left', top', right', bottom') |};
     saved_row := csv_row filename confidence (fst mid) (snd mid)
                    (py_sub right' left') (py_sub bottom' top') |}.

Definition replay_one (record : bool) (s : FS) (e : Saved) : FS :=
  {| dirs := dirs s;
     files := <[saved_path e := saved_crop e]> (files s);
     csv := csv s ++ (if record then [saved_row e] else []);
     stdout := stdout s |}.

(** The file system after the crops [evs] were saved one after the other. *)
Definition replay (record : bool) (evs : list Saved) (s : FS) : FS :=
  fold_left (replay_one record) evs s.

(** The crops saved by a loop and how it ends: the crops of the items in
    order, up to and including the first item that raises. *)
Fixpoint trace_each {A} (f : A -> list Saved * outcome unit) (l : list A)
  : list Saved * outcome unit :=
  match l with
  | [] => ([], Ok tt)
  | x :: l' =>
      match f x with
      | (evs, Ok _) =>
          let '(evs', o) := trace_each f l' in (evs ++ evs', o)
      | (evs, Raise e) => (evs, Raise e)
      end
  end.

Definition trace_find (d : Detector) (image : Image) (filename : string)
    (i : nat) (box : Boxes) (find : Q * Q * Q * Q)
  : list Saved * outcome unit :=
  let '(x1, y1, x2, y2) := find in
  let left := py_int x1 in
  let top := py_int y1 in
  let right := py_int x2 in
  let bottom := py_int y2 in
  match too_elongated (box_width left right) (box_height top bottom) with
  | Raise e => ([], Raise e)
  | Ok true => ([], Ok tt)
  | Ok false => ([saved_of d image filename i box left top right bottom], Ok tt)
  end.

Definition trace_box (d : Detector) (image : Image) (filename : string)
    (i : nat) (box : Boxes) : list Saved * outcome unit :=
  if Qltb (conf box) conf_threshold then ([], Ok tt)
  else trace_each (trace_find d image filename i box) (xyxy box).

Definition trace_image (w : World) (d : Detector)
    (image_path filename : string) : list Saved * outcome unit :=
  match Image_open w image_path with
  | None => ([], Raise UnidentifiedImageError)
  | Some image =>
      trace_each (fun '(i, result) =>
                    trace_each (trace_box d image filename i) result)
        (enumerate (model w image))
  end.

Definition trace_files (w : World) (d : Detector) (image_files : list string)
  : list Saved * outcome unit :=
  trace_each (fun filename =>
                trace_image w d (path_join (input_directory d) filename)
                  filename)
    image_files.

(** [runs record m tr]: from every file system, [m] saves the crops of
    [tr], in that order, and ends as [tr] does. *)
Definition runs (record : bool) (m : M unit)
    (tr : list Saved * outcome unit) : Prop :=
  forall s, m s = (replay record (fst tr) s, snd tr).

(** [e] is what is saved for an accepted detection of a listed image: the
    image [filename] is a [.jpg] entry that decodes, [box] is a detection of
    its result group [i], and one row of its corners passes the filter. *)
Definition detection_of (w : World) (d : Detector) (entries : list string)
    (e : Saved) : Prop :=
  exists filename image i result box x1 y1 x2 y2,
    In filename (image_files_of entries) /\
    Image_open w (path_join (input_directory d) filename) = Some image /\
    nth_error (model w image) i = Some result /\
    In box result /\
    In (x1, y1, x2, y2) (xyxy box) /\
    accepts (conf box) (py_int x1) (py_int y1) (py_int x2) (py_int y2)
      = Ok true /\
    e = saved_of d image filename i box
          (py_int x1) (py_int y1) (py_int x2) (py_int y2).

(** The output files after the crops [evs] were written over [m]. *)
Definition write_all (evs : list Saved) (m : gmap string Crop)
  : gmap string Crop :=
  fold_left (fun m e => <[saved_path e := saved_crop e]> m) evs m.

(** ** More example inputs *)

Definition d_example : Detector :=
  {| input_directory := "Set5"; output_directory := "wbc";
     save_to_csv := true |}.

Definition d_silent : Detector :=
  {| input_directory := "Set5"; output_directory := "wbc";
     save_to_csv := false |}.

Definition image_example : Image :=
  {| image_path := "Set5/cell01.jpg"; size := (400, 400) |}.

Definition box_example : Boxes :=
  {| conf := 812 # 1000; xyxy := [(150, 160, 190, 200)%Q] |}.

(** A second detection around the same centre, with a confidence that
    prints as the first one does. *)
Definition box_example' : Boxes :=
  {| conf := 814 # 1000; xyxy := [(140, 150, 200, 210)%Q] |}.

(** Three images and a text file; the second image does not decode. *)
Definition w_undecodable_second : World :=
  world_of "Set5" (Some ["b.jpg"; "a.jpg"; "notes.txt"; "c.jpg"])
    [("Set5/b.jpg", (400, 400, one_box (812 # 1000) 150 160 190 200));
     ("Set5/c.jpg", (400, 400, one_box (812 # 1000) 150 160 190 200))].

(** One image whose only detection is flat and below the threshold. *)
Definition w_faint : World :=
  world_of "Set5" (Some ["cell01.jpg"])
    [("Set5/cell01.jpg", (400, 400, one_box (2 # 10) 10 20 50 20))].

(** * Properties *)

(** ** Comparisons and arithmetic of Python numbers *)

Lemma Qltb_lt (x y : Q) : Qltb x y = true <-> (x < y)%Q.
Proof.
  unfold Qltb. rewrite negb_true_iff, <- not_true_iff_false, Qle_bool_iff.
  split; [apply Qnot_le_lt | apply Qlt_not_le].
Qed.

Lemma Qltb_ge (x y : Q) : Qltb x y = false <-> (y <= x)%Q.
Proof.
  unfold Qltb. rewrite negb_false_iff. apply Qle_bool_iff.
Qed.

Lemma pyval_py_max (a b : pynum) :
  (pyval (py_max a b) == Qmax (pyval a) (pyval b))%Q.
Proof.
  unfold py_max, py_lt. destruct (Qltb (pyval a) (pyval b)) eqn:E.
  - apply Qltb_lt in E. symmetry. apply Q.max_r. now apply Qlt_le_weak.
  - apply Qltb_ge in E. symmetry. now apply Q.max_l.
Qed.

Lemma pyval_py_min (a b : pynum) :
  (pyval (py_min a b) == Qmin (pyval a) (pyval b))%Q.
Proof.
  unfold py_min, py_lt. destruct (Qltb (pyval b) (pyval a)) eqn:E.
  - apply Qltb_lt in E. symmetry. apply Q.min_r. now apply Qlt_le_weak.
  - apply Qltb_ge in E. symmetry. now apply Q.min_l.
Qed.

Lemma pyval_py_sub (a b : pynum) :
  (pyval (py_sub a b) == pyval a - pyval b)%Q.
Proof.
  destruct a, b; simpl; try reflexivity.
  unfold Qeq, Qminus, Qplus, Qopp, inject_Z. simpl. lia.
Qed.

Lemma py_truediv_nonzero (a b : Z) :
  b <> 0 -> py_truediv a b = Ok (inject_Z a / inject_Z b)%Q.
Proof.
  intros Hb. unfold py_truediv. now destruct (Z.eqb_spec b 0).
Qed.

Lemma py_truediv_zero (a : Z) : py_truediv a 0 = Raise ZeroDivisionError.
Proof. reflexivity. Qed.

(** For positive sides the two quotients mirror each other around 1. *)
Lemma ratio_mirror (p q : positive) :
  (inject_Z (Z.pos q) / inject_Z (Z.pos p) < ratio_limit)%Q <->
  (1 / ratio_limit < inject_Z (Z.pos p) / inject_Z (Z.pos q))%Q.
Proof.
  unfold ratio_limit, Qlt, Qdiv, Qmult, Qinv, inject_Z. simpl. lia.
Qed.

Lemma abs_cases (z : Z) : Z.abs z <> 0 -> exists p, Z.abs z = Z.pos p.
Proof. destruct z; simpl; intros H; [now destruct H | eauto | eauto]. Qed.

(** ** The filter *)

Lemma accepts_nonzero (confidence : Q) (left top right bottom : Z) :
  box_width left right <> 0 -> box_height top bottom <> 0 ->
  accepts confidence left top right bottom =
  Ok (negb (Qltb confidence conf_threshold) &&
      negb (Qltb (inject_Z (box_width left right) /
                  inject_Z (box_height top bottom)) ratio_limit) &&
      negb (Qltb (inject_Z (box_height top bottom) /
                  inject_Z (box_width left right)) ratio_limit)).
Proof.
  intros Hw Hh. unfold accepts, too_elongated.
  rewrite (py_truediv_nonzero _ _ Hh), (py_truediv_nonzero _ _ Hw). simpl.
  destruct (Qltb confidence conf_threshold); [reflexivity |].
  destruct (Qltb (_ / inject_Z (box_height top bottom)) ratio_limit);
    reflexivity.
Qed.

Ltac q_absurd :=
  match goal with
  | H1 : (?x < ?y)%Q, H2 : (?y <= ?x)%Q |- _ =>
      exfalso; exact (Qlt_not_le _ _ H1 H2)
  end.

(** C3 as stated fails: a confidence equal to the single-precision value
    of 0.35 is below 35/100, and a square box with it is accepted. *)
Lemma C3_threshold_counterexample :
  (11744051 # 33554432 < 35 # 100)%Q /\
  box_width 150 190 <> 0 /\ box_height 160 200 <> 0 /\
  accepts (11744051 # 33554432) 150 160 190 200 = Ok true.
Proof. repeat split; vm_compute; congruence. Qed.

(** C3, amended: a detection whose box has nonzero width and height is
    accepted exactly when its confidence is at least the single-precision
    value of 0.35, that is 11744051/33554432, and the ratio width/height
    lies between 0.7 and 1/0.7; it is rejected exactly when the confidence
    is below that value, or width/height < 0.7, or height/width < 0.7. *)
Theorem C3_filter_accepts_iff (confidence : Q) (left top right bottom : Z) :
  box_width left right <> 0 ->
  box_height top bottom <> 0 ->
  let ratio :=
    (inject_Z (box_width left right) / inject_Z (box_height top bottom))%Q in
  let inverse :=
    (inject_Z (box_height top bottom) / inject_Z (box_width left right))%Q in
  (accepts confidence left top right bottom = Ok true <->
   (11744051 # 33554432 <= confidence /\
    7 # 10 <= ratio /\ ratio <= 1 / (7 # 10))%Q) /\
  (accepts confidence left top right bottom = Ok false <->
   (confidence < 11744051 # 33554432 \/
    ratio < 7 # 10 \/ inverse < 7 # 10)%Q).
Proof.
  intros Hw Hh ratio inverse.
  rewrite (accepts_nonzero _ _ _ _ _ Hw Hh). fold ratio inverse.
  assert (Hm : (inverse < ratio_limit <-> 1 / ratio_limit < ratio)%Q).
  { subst ratio inverse.
    destruct (abs_cases (left - right) Hw) as [p Hp].
    destruct (abs_cases (top - bottom) Hh) as [q Hq].
    unfold box_width, box_height. rewrite Hp, Hq. apply ratio_mirror. }
  change (11744051 # 33554432)%Q with conf_threshold.
  change (7 # 10)%Q with ratio_limit.
  assert (Hm' : (ratio_limit <= inverse -> ratio <= 1 / ratio_limit)%Q).
  { intros Hi. apply Qnot_lt_le. intros C. apply Hm in C.
    exact (Qlt_not_le _ _ C Hi). }
  destruct (Qltb confidence conf_threshold) eqn:Ec;
    destruct (Qltb ratio ratio_limit) eqn:Er;
    destruct (Qltb inverse ratio_limit) eqn:Ei; simpl;
    repeat match goal with
      | H : Qltb _ _ = true |- _ => apply Qltb_lt in H
      | H : Qltb _ _ = false |- _ => apply Qltb_ge in H
      end;
    try (apply Hm in Ei); try (apply Hm' in Ei);
    (split; split; intros G; try discriminate; try reflexivity;
     try (destruct G as (G1 & G2 & G3));
     try (destruct G as [G | [G | G]]; try apply Hm in G);
     try q_absurd; auto; try (right; right; apply Hm; assumption)).
Qed.

Lemma C3_filter_accepts_iff_witness :
  accepts (812 # 1000) 150 160 190 200 = Ok true /\
  accepts (812 # 1000) 150 160 190 300 = Ok false.
Proof.
  split.
  - apply (C3_filter_accepts_iff (812 # 1000) 150 160 190 200);
      vm_compute; intuition discriminate.
  - apply (C3_filter_accepts_iff (812 # 1000) 150 160 190 300);
      vm_compute; try discriminate. right; left. reflexivity.
Defined.

(** ** The crop window *)

Lemma crop_window_values (mid : Q * Q) (sz : Z * Z)
    (left' top' right' bottom' : pynum) :
  crop_window mid sz = (left', top', right', bottom') ->
  (pyval left' == Qmax (fst mid - 100) 0 /\
   pyval top' == Qmax (snd mid - 100) 0 /\
   pyval right' == Qmin (fst mid + 100) (inject_Z (fst sz)) /\
   pyval bottom' == Qmin (snd mid + 100) (inject_Z (snd sz)))%Q.
Proof.
  unfold crop_window. intros E. inversion E; subst; clear E.
  repeat split;
    first [ apply (pyval_py_max (PyFloat _) (PyInt 0))
          | apply (pyval_py_min (PyFloat _) (PyInt _)) ].
Qed.

Lemma mid_between (a b : Z) :
  a <= b ->
  (inject_Z a <= inject_Z (b + a) / 2 /\ inject_Z (b + a) / 2 <= inject_Z b)%Q.
Proof.
  intros Hab. unfold Qle, Qdiv, Qmult, Qinv, inject_Z. simpl. lia.
Qed.

(** C4: the crop window is left' = max(cx-100, 0), top' = max(cy-100, 0),
    right' = min(cx+100, W), bottom' = min(cy+100, H) for the exact (not
    rounded) centre cx = (right+left)/2, cy = (bottom+top)/2; when the
    centre is at least 100 pixels away from every border of the image the
    window is 200 by 200 and centred on (cx, cy). *)
Theorem C4_crop_window_formula (left top right bottom W H : Z)
    (left' top' right' bottom' : pynum) :
  crop_window (box_mid left top right bottom) (W, H)
    = (left', top', right', bottom') ->
  let cx := (inject_Z (right + left) / 2)%Q in
  let cy := (inject_Z (bottom + top) / 2)%Q in
  box_mid left top right bottom = (cx, cy) /\
  (pyval left' == Qmax (cx - 100) 0)%Q /\
  (pyval top' == Qmax (cy - 100) 0)%Q /\
  (pyval right' == Qmin (cx + 100) (inject_Z W))%Q /\
  (pyval bottom' == Qmin (cy + 100) (inject_Z H))%Q /\
  ((100 <= cx /\ cx + 100 <= inject_Z W /\
    100 <= cy /\ cy + 100 <= inject_Z H)%Q ->
   (pyval right' - pyval left' == 200 /\
    pyval bottom' - pyval top' == 200 /\
    (pyval left' + pyval right') / 2 == cx /\
    (pyval top' + pyval bottom') / 2 == cy)%Q).
Proof.
  intros E cx cy.
  destruct (crop_window_values _ _ _ _ _ _ E) as (Hl & Ht & Hr & Hb).
  simpl in Hl, Ht, Hr, Hb. fold cx in Hl, Hr. fold cy in Ht, Hb.
  split; [reflexivity |]. repeat (split; [assumption |]).
  intros (Hx0 & Hx1 & Hy0 & Hy1).
  rewrite Q.max_l in Hl by lra. rewrite Q.max_l in Ht by lra.
  rewrite Q.min_l in Hr by lra. rewrite Q.min_l in Hb by lra.
  rewrite Hl, Ht, Hr, Hb. repeat split; field.
Qed.

Lemma C4_crop_window_formula_witness :
  (pyval (PyFloat (540 # 2)) - pyval (PyFloat (140 # 2)) == 200)%Q.
Proof.
  refine (proj1 (proj2 (proj2 (proj2 (proj2 (proj2
    (C4_crop_window_formula 150 160 190 200 400 400
       (PyFloat (140 # 2)) (PyFloat (160 # 2))
       (PyFloat (540 # 2)) (PyFloat (560 # 2)) _))))) _)).
  - reflexivity.
  - vm_compute. intuition discriminate.
Defined.

(** C6: for a box inside the image, the crop region stays inside the
    image, is ordered, and spans at most 200 pixels each way. *)
Theorem C6_crop_region_invariant (left top right bottom W H : Z)
    (left' top' right' bottom' : pynum) :
  0 <= left <= right -> right <= W ->
  0 <= top <= bottom -> bottom <= H ->
  crop_window (box_mid left top right bottom) (W, H)
    = (left', top', right', bottom') ->
  (0 <= pyval left' /\ pyval left' <= pyval right' /\
   pyval right' <= inject_Z W /\
   0 <= pyval top' /\ pyval top' <= pyval bottom' /\
   pyval bottom' <= inject_Z H /\
   pyval right' - pyval left' <= 200 /\
   pyval bottom' - pyval top' <= 200)%Q.
Proof.
  intros [Hl0 Hlr] HrW [Ht0 Htb] HbH E.
  destruct (crop_window_values _ _ _ _ _ _ E) as (Hl & Ht & Hr & Hb).
  simpl in Hl, Ht, Hr, Hb.
  destruct (mid_between left right Hlr) as [Hx0 Hx1].
  destruct (mid_between top bottom Htb) as [Hy0 Hy1].
  assert (Hl0q : (0 <= inject_Z left)%Q) by (now rewrite <- (Zle_Qle 0)).
  assert (Ht0q : (0 <= inject_Z top)%Q) by (now rewrite <- (Zle_Qle 0)).
  assert (HrWq : (inject_Z right <= inject_Z W)%Q) by (now rewrite <- Zle_Qle).
  assert (HbHq : (inject_Z bottom <= inject_Z H)%Q) by (now rewrite <- Zle_Qle).
  set (cx := (inject_Z (right + left) / 2)%Q) in *.
  set (cy := (inject_Z (bottom + top) / 2)%Q) in *.
  rewrite Hl, Ht, Hr, Hb.
  destruct (Q.max_spec (cx - 100) 0) as [[? ->] | [? ->]];
    destruct (Q.max_spec (cy - 100) 0) as [[? ->] | [? ->]];
    destruct (Q.min_spec (cx + 100) (inject_Z W)) as [[? ->] | [? ->]];
    destruct (Q.min_spec (cy + 100) (inject_Z H)) as [[? ->] | [? ->]];
    repeat split; lra.
Qed.

Lemma C6_crop_region_invariant_witness :
  (pyval (PyFloat (260 # 2)) - pyval (PyInt 0) <= 200)%Q.
Proof.
  refine (proj1 (proj2 (proj2 (proj2 (proj2 (proj2 (proj2
    (C6_crop_region_invariant 10 160 50 200 400 400
       (PyInt 0) (PyFloat (160 # 2))
       (PyFloat (260 # 2)) (PyFloat (560 # 2)) _ _ _ _ _))))))));
    first [reflexivity | lia].
Defined.

(** ** The filter inside the loop *)

(** [process_box] on a detection with one row of corners follows the
    verdict of [accepts]. *)
Lemma process_box_accepts (d : Detector) (image : Image) (filename : string)
    (i : nat) (box : Boxes) (x1 y1 x2 y2 : Q) (s : FS) :
  xyxy box = [(x1, y1, x2, y2)] ->
  process_box d image filename i box s =
  match accepts (conf box) (py_int x1) (py_int y1) (py_int x2) (py_int y2) with
  | Ok true =>
      save_crop d image filename i box
        (py_int x1) (py_int y1) (py_int x2) (py_int y2) s
  | Ok false => (s, Ok tt)
  | Raise e => (s, Raise e)
  end.
Proof.
  intros Hx. unfold process_box, accepts. rewrite Hx.
  destruct (Qltb (conf box) conf_threshold); [reflexivity |].
  simpl. unfold bind, lift.
  destruct (too_elongated _ _) as [[|]|e]; simpl; try reflexivity.
  unfold ret. now destruct (save_crop _ _ _ _ _ _ _ _ _ s) as [s' [[]|e]].
Qed.

(** A box of zero width and nonzero height is skipped without a fault. *)
Lemma zero_width_rejected (confidence : Q) (left top right bottom : Z) :
  box_width left right = 0 -> box_height top bottom <> 0 ->
  accepts confidence left top right bottom = Ok false.
Proof.
  intros Hw Hh. unfold accepts, too_elongated.
  destruct (Qltb confidence conf_threshold); [reflexivity |].
  rewrite Hw, (py_truediv_nonzero _ _ Hh). reflexivity.
Qed.

(** A box of zero height above the confidence threshold raises. *)
Lemma zero_height_raises (confidence : Q) (left top right bottom : Z) :
  (conf_threshold <= confidence)%Q -> box_height top bottom = 0 ->
  accepts confidence left top right bottom = Raise ZeroDivisionError.
Proof.
  intros Hc Hh. unfold accepts, too_elongated.
  apply Qltb_ge in Hc. rewrite Hc, Hh. reflexivity.
Qed.

(** What [save_crop] does when rows are recorded: one file, named after the
    spans [bottom' - top'] (h) and [right' - left'] (w), and one row whose
    [height] cell is [right' - left'] and whose [width] cell is
    [bottom' - top']. *)
Lemma save_crop_effect (d : Detector) (image : Image) (filename : string)
    (i : nat) (box : Boxes) (left top right bottom : Z)
    (left' top' right' bottom' : pynum) (s : FS) :
  crop_window (box_mid left top right bottom) (size image)
    = (left', top', right', bottom') ->
  save_to_csv d = true ->
  save_crop d image filename i box left top right bottom s =
  ({| dirs := dirs s;
      files :=
        <[path_join (output_directory d)
            (crop_filename (format_2f (conf box)) filename
               (box_mid left top right bottom)
               (left', top', right', bottom') i) :=
            {| crop_source := image;
               crop_box := (left', top', right', bottom') |}]> (files s);
      csv := csv s ++
        [[filename; format_2f (conf box);
          float_repr (fst (box_mid left top right bottom));
          float_repr (snd (box_mid left top right bottom));
          py_str (py_sub right' left'); py_str (py_sub bottom' top')]];
      stdout := stdout s |}, Ok tt).
Proof.
  intros E Hrec. unfold save_crop. rewrite E, Hrec. reflexivity.
Qed.

(** ** Runs on the example inputs *)

(** C1: in the run over [w_flat] the first image has a detection of
    confidence 0.9 whose box (10, 20, 50, 20) has height zero.  The verdict
    of the filter is a [ZeroDivisionError], the run ends with it, and the
    crop of the second image, which a run over that image alone writes, is
    never written. *)
Theorem C1_zero_height_aborts_batch :
  accepts (9 # 10) (py_int (103 # 10)) (py_int (202 # 10))
          (py_int (501 # 10)) (py_int (208 # 10))
    = Raise ZeroDivisionError /\
  snd (main w_flat fs_empty) = Raise ZeroDivisionError /\
  files (fst (main w_flat fs_empty)) = ∅ /\
  csv (fst (main w_flat fs_empty)) = [csv_header] /\
  snd (main w_flat_rest fs_empty) = Ok tt /\
  dom (files (fst (main w_flat_rest fs_empty))) =
    {[ "wbc/0.81_b.jpg_x_170.0_y_180.0_h_200.0_w_200.0_result0.jpg" ]}.
Proof. repeat split; vm_compute; reflexivity. Qed.

(** C2: in the run over [w_border] the crop region is (0, 80, 130, 280):
    its vertical span is 200 and its horizontal span is 130.  The row
    appended under the header [filename, confidence, center_x, center_y,
    height, width] carries 130.0 in the column [height] and 200.0 in the
    column [width], while the file name carries h_200.0 and w_130.0. *)
Theorem C2_row_height_is_horizontal_span :
  let region := crop_window (box_mid 10 160 50 200) (400, 400) in
  let row := ["cell01.jpg"; "0.81"; "30.0"; "180.0"; "130.0"; "200.0"] in
  region = (PyInt 0, PyFloat (160 # 2), PyFloat (260 # 2), PyFloat (560 # 2)) /\
  py_str (py_sub (PyFloat (560 # 2)) (PyFloat (160 # 2))) = "200.0" /\
  py_str (py_sub (PyFloat (260 # 2)) (PyInt 0)) = "130.0" /\
  csv (fst (main w_border fs_empty)) = [csv_header; row] /\
  csv_header !! 4%nat = Some "height" /\
  row !! 4%nat = Some "130.0" /\
  dom (files (fst (main w_border fs_empty))) =
    {[ "wbc/0.81_cell01.jpg_x_30.0_y_180.0_h_200.0_w_130.0_result0.jpg" ]}.
Proof. repeat split; vm_compute; reflexivity. Qed.

(** C5 as stated fails: the run over the worked example writes no file
    named [..._h_200_w_200_result0.jpg] and no row ending in [200, 200]. *)
Lemma C5_worked_example_counterexample :
  files (fst (main w_worked fs_empty)) !!
    "wbc/0.81_cell01.jpg_x_170.0_y_180.0_h_200_w_200_result0.jpg" = None /\
  csv (fst (main w_worked fs_empty)) <>
    [csv_header; ["cell01.jpg"; "0.81"; "170.0"; "180.0"; "200"; "200"]].
Proof.
  split.
  - vm_compute. reflexivity.
  - intros H. vm_compute in H. discriminate H.
Qed.

(** C5, amended: in the worked example the detection is accepted, the crop
    region is (70, 80, 270, 280), the spans are floats and are printed as
    such: the only file written is
    [0.81_cell01.jpg_x_170.0_y_180.0_h_200.0_w_200.0_result0.jpg] and the
    only row appended is [cell01.jpg, 0.81, 170.0, 180.0, 200.0, 200.0]. *)
Theorem C5_worked_example :
  let mid := box_mid 150 160 190 200 in
  let region := crop_window mid (400, 400) in
  accepts (812 # 1000) 150 160 190 200 = Ok true /\
  region = (PyFloat (140 # 2), PyFloat (160 # 2),
            PyFloat (540 # 2), PyFloat (560 # 2)) /\
  (140 # 2 == 70 /\ 160 # 2 == 80 /\ 540 # 2 == 270 /\ 560 # 2 == 280)%Q /\
  crop_filename (format_2f (812 # 1000)) "cell01.jpg" mid region 0 =
    "0.81_cell01.jpg_x_170.0_y_180.0_h_200.0_w_200.0_result0.jpg" /\
  snd (main w_worked fs_empty) = Ok tt /\
  dom (files (fst (main w_worked fs_empty))) =
    {[ "wbc/0.81_cell01.jpg_x_170.0_y_180.0_h_200.0_w_200.0_result0.jpg" ]} /\
  csv (fst (main w_worked fs_empty)) =
    [csv_header; ["cell01.jpg"; "0.81"; "170.0"; "180.0"; "200.0"; "200.0"]].
Proof. repeat split; vm_compute; reflexivity. Qed.

(** C7 as stated fails: when the first of two images does not decode, the
    run ends with the error, the second image (which a run over it alone
    crops) is not processed and nothing names the failing file. *)
Lemma C7_decode_failure_counterexample :
  snd (main w_undecodable fs_empty) = Raise UnidentifiedImageError /\
  files (fst (main w_undecodable fs_empty)) = ∅ /\
  dom (files (fst (main w_flat_rest fs_empty))) =
    {[ "wbc/0.81_b.jpg_x_170.0_y_180.0_h_200.0_w_200.0_result0.jpg" ]} /\
  stdout (fst (main w_undecodable fs_empty)) =
    ["Input directory set to 'Set5'";
     "Creating new output directory 'wbc'";
     "Saving to csv file: output.csv";
     "Input directory set to 'Set5' with 2 images."].
Proof. repeat split; vm_compute; reflexivity. Qed.

(** C8 as stated fails: with a missing input directory the run ends with a
    [FileNotFoundError] and prints nothing about it. *)
Lemma C8_missing_directory_counterexample :
  snd (main w_missing fs_empty) = Raise FileNotFoundError /\
  stdout (fst (main w_missing fs_empty)) =
    ["Input directory set to 'Set5'";
     "Creating new output directory 'wbc'";
     "Saving to csv file: output.csv"].
Proof. repeat split; vm_compute; reflexivity. Qed.

(** ** Computations that only log *)

Lemma add_log_empty (s : FS) : add_log ∅ [] s = s.
Proof.
  destruct s as [ds fs rows out]. unfold add_log. simpl.
  now rewrite (left_id_L ∅ (∪)), app_nil_r.
Qed.

Lemma add_log_add_log (F1 F2 : gmap string Crop)
    (r1 r2 : list (list string)) (s : FS) :
  add_log F2 r2 (add_log F1 r1 s) = add_log (F2 ∪ F1) (r1 ++ r2) s.
Proof.
  unfold add_log. simpl. now rewrite (assoc_L (∪)), app_assoc.
Qed.

Section Tidy.

Variable record : bool.

Lemma tidy_lift {A} (o : outcome A) : tidy record (lift o).
Proof.
  exists ∅, [], o. intros s. unfold lift.
  destruct record; now rewrite add_log_empty.
Qed.

Lemma tidy_ret {A} (a : A) : tidy record (ret a).
Proof. apply (tidy_lift (Ok a)). Qed.

Lemma tidy_raise {A} (e : exn) : tidy record (@raise A e).
Proof. apply (tidy_lift (Raise e)). Qed.

Lemma tidy_bind {A B} (m : M A) (k : A -> M B) :
  tidy record m -> (forall a, tidy record (k a)) -> tidy record (bind m k).
Proof.
  intros (F1 & r1 & [a | e] & H1) Hk.
  - destruct (Hk a) as (F2 & r2 & o & H2).
    exists (F2 ∪ F1), (r1 ++ r2), o. intros s.
    unfold bind. rewrite H1, H2, add_log_add_log.
    now destruct record.
  - exists F1, r1, (Raise e). intros s. unfold bind. now rewrite H1.
Qed.

Lemma tidy_for_each {A} (l : list A) (body : A -> M unit) :
  (forall x, tidy record (body x)) -> tidy record (for_each l body).
Proof.
  intros Hb. induction l as [| x l IH]; simpl.
  - apply tidy_ret.
  - apply tidy_bind; [apply Hb | intros _; apply IH].
Qed.

Lemma tidy_image_save (p : string) (c : Crop) : tidy record (image_save p c).
Proof.
  exists {[p := c]}, [], (Ok tt). intros s. unfold image_save, add_log.
  rewrite insert_union_singleton_l.
  destruct record; simpl; now rewrite app_nil_r.
Qed.

End Tidy.

Lemma tidy_csv_append (row : list string) : tidy true (csv_append row).
Proof.
  exists ∅, [row], (Ok tt). intros s. unfold csv_append, add_log.
  now rewrite (left_id_L ∅ (∪)).
Qed.

Section TidyDetector.

Variable w : World.
Variable d : Detector.

Lemma tidy_save_crop image filename i box left top right bottom :
  tidy (save_to_csv d) (save_crop d image filename i box left top right bottom).
Proof.
  unfold save_crop.
  destruct (crop_window _ _) as [[[left' top'] right'] bottom'].
  apply tidy_bind; [apply tidy_image_save |]. intros _.
  destruct (save_to_csv d); [apply tidy_csv_append | apply tidy_ret].
Qed.

Lemma tidy_process_find image filename i box find :
  tidy (save_to_csv d) (process_find d image filename i box find).
Proof.
  destruct find as [[[x1 y1] x2] y2]. unfold process_find.
  apply tidy_bind; [apply tidy_lift |]. intros [|].
  - apply tidy_ret.
  - apply tidy_save_crop.
Qed.

Lemma tidy_process_box image filename i box :
  tidy (save_to_csv d) (process_box d image filename i box).
Proof.
  unfold process_box. destruct (Qltb _ _); [apply tidy_ret |].
  apply tidy_for_each. intros find. apply tidy_process_find.
Qed.

Lemma tidy_process_image image_path filename :
  tidy (save_to_csv d) (_process_image w d image_path filename).
Proof.
  unfold _process_image. apply tidy_bind.
  - unfold image_open. destruct (Image_open w image_path);
      [apply tidy_ret | apply tidy_raise].
  - intros image. apply tidy_for_each. intros [i result].
    apply tidy_for_each. intros box. apply tidy_process_box.
Qed.

Lemma tidy_process_files image_files :
  tidy (save_to_csv d) (process_files w d image_files).
Proof.
  unfold process_files. apply tidy_for_each. intros filename.
  apply tidy_process_image.
Qed.

(** With a directory name that is not empty, [ensure_output_directory]
    ends normally and touches neither the crops, nor the rows, nor the lines
    printed. *)
Lemma ensure_output_directory_spec (s : FS) :
  output_directory d <> "" ->
  exists s0,
    ensure_output_directory d s = (s0, Ok tt) /\
    files s0 = files s /\ csv s0 = csv s /\ stdout s0 = stdout s.
Proof.
  intros Hout.
  unfold ensure_output_directory, bind, path_exists, makedirs, ret.
  destruct (String.eqb_spec (output_directory d) ""); [contradiction |].
  simpl. destruct (bool_decide (output_directory d ∈ dirs s)); simpl; eauto.
Qed.

Lemma ensure_output_directory_dirs (s : FS) :
  output_directory d <> "" ->
  output_directory d ∈ dirs (fst (ensure_output_directory d s)) /\
  dirs s ⊆ dirs (fst (ensure_output_directory d s)).
Proof.
  intros Hout.
  unfold ensure_output_directory, bind, path_exists, makedirs, ret.
  destruct (String.eqb_spec (output_directory d) ""); [contradiction |].
  simpl.
  destruct (bool_decide_reflect (output_directory d ∈ dirs s)); simpl.
  - split; [assumption | reflexivity].
  - split; [apply elem_of_union_l, elem_of_singleton_2; reflexivity
           | apply union_subseteq_r].
Qed.

(** With the empty directory name, the default, [extract] stops at once. *)
Lemma extract_no_output_directory (s : FS) :
  output_directory d = "" ->
  extract w d s = (s, Raise FileNotFoundError).
Proof.
  intros Hout.
  unfold extract, ensure_output_directory, bind, path_exists, makedirs.
  rewrite Hout. reflexivity.
Qed.

(** [extract] after the output directory is in place. *)
Lemma extract_unfold (s : FS) :
  output_directory d <> "" ->
  extract w d s =
  let s0 := fst (ensure_output_directory d s) in
  match os_listdir w (input_directory d) with
  | Some entries =>
      if (length (image_files_of entries) =? 0)%nat
      then print (no_images_line d) s0
      else (print (image_count_line d (length (image_files_of entries))) ;;
            process_files w d (image_files_of entries)) s0
  | None => (s0, Raise FileNotFoundError)
  end.
Proof.
  intros Hout. destruct (ensure_output_directory_spec s Hout) as (s0 & Hs0 & _).
  unfold extract, bind at 1 2, listdir. rewrite Hs0. simpl.
  destruct (os_listdir w (input_directory d)); [| reflexivity].
  unfold ret. simpl. now destruct (_ =? _)%nat.
Qed.

(** [extract] writes the same crops, appends the same rows and ends the
    same way from every file system. *)
Lemma extract_log :
  exists F rows o, forall s,
    files (fst (extract w d s)) = F ∪ files s /\
    csv (fst (extract w d s)) = csv s ++ (if save_to_csv d then rows else []) /\
    snd (extract w d s) = o.
Proof.
  destruct (decide (output_directory d = "")) as [Hout | Hout].
  { exists ∅, [], (Raise FileNotFoundError). intros s.
    rewrite (extract_no_output_directory s Hout). simpl.
    rewrite (left_id_L ∅ (∪)).
    now destruct (save_to_csv d); rewrite app_nil_r. }
  destruct (os_listdir w (input_directory d)) as [entries |] eqn:Hl.
  - destruct (length (image_files_of entries) =? 0)%nat eqn:Hn.
    + exists ∅, [], (Ok tt). intros s.
      rewrite (extract_unfold s Hout), Hl, Hn.
      destruct (ensure_output_directory_spec s Hout)
        as (s0 & -> & Hf & Hc & _).
      simpl. rewrite (left_id_L ∅ (∪)), Hf, Hc.
      now destruct (save_to_csv d); rewrite app_nil_r.
    + destruct (tidy_process_files (image_files_of entries))
        as (F & rows & o & Hp).
      exists F, rows, o. intros s.
      rewrite (extract_unfold s Hout), Hl, Hn.
      destruct (ensure_output_directory_spec s Hout)
        as (s0 & -> & Hf & Hc & _).
      unfold bind, print. simpl. rewrite Hp. simpl. rewrite Hf, Hc.
      now destruct o.
  - exists ∅, [], (Raise FileNotFoundError). intros s.
    rewrite (extract_unfold s Hout), Hl.
    destruct (ensure_output_directory_spec s Hout)
      as (s0 & -> & Hf & Hc & _).
    simpl. rewrite (left_id_L ∅ (∪)), Hf, Hc.
    now destruct (save_to_csv d); rewrite app_nil_r.
Qed.

Lemma process_files_stdout (image_files : list string) (s : FS) :
  stdout (fst (process_files w d image_files s)) = stdout s.
Proof.
  destruct (tidy_process_files image_files) as (F & rows & o & H).
  now rewrite H.
Qed.

End TidyDetector.

(** ** Running the script twice *)

Lemma session_log (w : World) (input output : string) (record : bool) :
  output <> "" ->
  exists F rows o, forall s,
    files (fst (session w input output record s)) = F ∪ files s /\
    csv (fst (session w input output record s)) =
      (if record then csv_header :: rows else csv s) /\
    snd (session w input output record s) = o.
Proof.
  intros Hout.
  destruct (extract_log w
    {| input_directory := input; output_directory := output;
       save_to_csv := record |}) as (F & rows & o & H).
  exists F, rows, o. intros s.
  unfold session, set_input_directory, set_output_directory, set_save_to_csv,
    bind, print, path_exists, makedirs, ret, init, csv_create.
  destruct (String.eqb_spec output ""); [contradiction |]. simpl.
  destruct (bool_decide (output ∈ dirs s)); simpl;
    destruct record; simpl;
    match goal with
    | |- context [extract _ _ ?s1] => destruct (H s1) as (Hf & Hc & Ho)
    end; simpl in *; rewrite Hf, Hc, Ho, ?app_nil_r; auto.
Qed.

(** With the empty name for the output directory the script stops in
    [set_output_directory], before the table is opened. *)
Lemma session_no_output_directory (w : World) (input : string)
    (record : bool) (s : FS) :
  files (fst (session w input "" record s)) = files s /\
  csv (fst (session w input "" record s)) = csv s /\
  dirs (fst (session w input "" record s)) = dirs s /\
  snd (session w input "" record s) = Raise FileNotFoundError.
Proof.
  unfold session, set_input_directory, set_output_directory, bind, print,
    path_exists, makedirs, ret, init. simpl. auto.
Qed.

(** C9: for a fixed world (input directory, decoder and detection model)
    the script run a second time, on the file system the first run left,
    leaves the same output files and the same table rows and ends the same
    way. *)
Theorem C9_rerun_deterministic (w : World) (input output : string)
    (record : bool) (s : FS) :
  let r1 := session w input output record s in
  let r2 := session w input output record (fst r1) in
  dom (files (fst r2)) = dom (files (fst r1)) /\
  files (fst r2) = files (fst r1) /\
  csv (fst r2) = csv (fst r1) /\
  snd r2 = snd r1.
Proof.
  intros r1 r2. subst r1 r2.
  assert (Hgoal :
    files (fst (session w input output record
                  (fst (session w input output record s)))) =
      files (fst (session w input output record s)) /\
    csv (fst (session w input output record
                (fst (session w input output record s)))) =
      csv (fst (session w input output record s)) /\
    snd (session w input output record
           (fst (session w input output record s))) =
      snd (session w input output record s)).
  { destruct (decide (output = "")) as [-> | Hout].
    - destruct (session_no_output_directory w input record s)
        as (Hf1 & Hc1 & _ & Ho1).
      destruct (session_no_output_directory w input record
                  (fst (session w input "" record s)))
        as (Hf2 & Hc2 & _ & Ho2).
      rewrite Hf2, Hc2, Ho2, Ho1. auto.
    - destruct (session_log w input output record Hout)
        as (F & rows & o & H).
      destruct (H s) as (Hf1 & Hc1 & Ho1).
      destruct (H (fst (session w input output record s)))
        as (Hf2 & Hc2 & Ho2).
      rewrite Hf2, Hc2, Ho2, Hf1, Hc1, Ho1.
      rewrite (assoc_L (∪)), (idemp_L (∪)).
      destruct record; repeat split; reflexivity. }
  destruct Hgoal as (Hf & Hc & Ho). rewrite Hf. auto.
Qed.

(** ** The batch loop *)

Lemma for_each_app {A} (l1 l2 : list A) (body : A -> M unit) (s : FS) :
  for_each (l1 ++ l2) body s =
  match for_each l1 body s with
  | (s', Ok _) => for_each l2 body s'
  | (s', Raise e) => (s', Raise e)
  end.
Proof.
  revert s. induction l1 as [| x l1 IH]; intros s; simpl.
  - reflexivity.
  - unfold bind. destruct (body x s) as [s1 [[] | e]]; [apply IH | reflexivity].
Qed.

Section Batch.

Variable w : World.
Variable d : Detector.

(** C7, amended: with an output directory whose name is not empty, when an
    image of the listing does not decode, [extract] processes the images
    listed before it and then ends with the decoding error; the failing
    image and the images after it are not processed, and nothing is printed
    beyond the line that counts the images. *)
Theorem C7_decode_failure_ends_run (entries before after : list string)
    (f : string) (s : FS) :
  output_directory d <> "" ->
  os_listdir w (input_directory d) = Some entries ->
  image_files_of entries = before ++ f :: after ->
  Image_open w (path_join (input_directory d) f) = None ->
  let line := image_count_line d (length (before ++ f :: after)) in
  let s1 := fst ((ensure_output_directory d ;; print line) s) in
  extract w d s =
    match process_files w d before s1 with
    | (s', Ok _) => (s', Raise UnidentifiedImageError)
    | (s', Raise e) => (s', Raise e)
    end /\
  (exists e, snd (extract w d s) = Raise e) /\
  stdout (fst (extract w d s)) = stdout s ++ [line].
Proof.
  intros Hdir Hl Hf Hopen line s1.
  assert (Hs1 : stdout s1 = stdout s ++ [line]).
  { subst s1. unfold bind.
    destruct (ensure_output_directory_spec d s Hdir)
      as (s0 & -> & _ & _ & Hout).
    simpl. now rewrite Hout. }
  assert (Hext : extract w d s =
    match process_files w d before s1 with
    | (s', Ok _) => (s', Raise UnidentifiedImageError)
    | (s', Raise e) => (s', Raise e)
    end).
  { rewrite (extract_unfold w d s Hdir), Hl, Hf. subst s1 line.
    replace (length (before ++ f :: after) =? 0)%nat with false
      by (symmetry; apply Nat.eqb_neq; rewrite length_app; simpl; lia).
    destruct (ensure_output_directory_spec d s Hdir) as (s0 & Hs0 & _).
    unfold bind. rewrite Hs0. simpl.
    unfold process_files. rewrite for_each_app.
    destruct (for_each before _ _) as [s' [[] | e]]; [| reflexivity].
    simpl. unfold bind, _process_image, image_open. rewrite Hopen.
    reflexivity. }
  rewrite Hext. rewrite <- Hs1.
  pose proof (process_files_stdout w d before s1) as Hout.
  destruct (process_files w d before s1) as [s' [[] | e]]; simpl in *; eauto.
Qed.

(** C8, amended: with an output directory whose name is not empty, when the
    input directory can be listed and holds no [.jpg] entry the run reports
    it and ends normally without writing a file or a row; when the listing
    of the input directory fails the run ends with a [FileNotFoundError],
    again without writing a file or a row, and prints nothing. *)
Theorem C8_no_images (s : FS) :
  (forall entries,
     output_directory d <> "" ->
     os_listdir w (input_directory d) = Some entries ->
     image_files_of entries = [] ->
     snd (extract w d s) = Ok tt /\
     files (fst (extract w d s)) = files s /\
     csv (fst (extract w d s)) = csv s /\
     stdout (fst (extract w d s)) = stdout s ++ [no_images_line d]) /\
  (os_listdir w (input_directory d) = None ->
   snd (extract w d s) = Raise FileNotFoundError /\
   files (fst (extract w d s)) = files s /\
   csv (fst (extract w d s)) = csv s /\
   stdout (fst (extract w d s)) = stdout s).
Proof.
  split.
  - intros entries Hdir Hl Hnil.
    destruct (ensure_output_directory_spec d s Hdir)
      as (s0 & Hs0 & Hf & Hc & Hout).
    rewrite (extract_unfold w d s Hdir), Hl, Hnil, Hs0. simpl.
    rewrite Hf, Hc, Hout. auto.
  - intros Hl. destruct (decide (output_directory d = "")) as [Hdir | Hdir].
    + rewrite (extract_no_output_directory w d s Hdir). simpl. auto.
    + destruct (ensure_output_directory_spec d s Hdir)
        as (s0 & Hs0 & Hf & Hc & Hout).
      rewrite (extract_unfold w d s Hdir), Hl, Hs0. simpl. auto.
Qed.

End Batch.

Lemma C7_decode_failure_ends_run_witness :
  extract w_undecodable_second
    {| input_directory := "Set5"; output_directory := "wbc";
       save_to_csv := true |} fs_empty =
  match process_files w_undecodable_second
          {| input_directory := "Set5"; output_directory := "wbc";
             save_to_csv := true |} ["b.jpg"]
          (fst ((ensure_output_directory
                   {| input_directory := "Set5"; output_directory := "wbc";
                      save_to_csv := true |} ;;
                 print "Input directory set to 'Set5' with 3 images.")
                  fs_empty))
  with
  | (s', Ok _) => (s', Raise UnidentifiedImageError)
  | (s', Raise e) => (s', Raise e)
  end.
Proof.
  refine (proj1 (C7_decode_failure_ends_run w_undecodable_second
    {| input_directory := "Set5"; output_directory := "wbc";
       save_to_csv := true |}
    ["b.jpg"; "a.jpg"; "notes.txt"; "c.jpg"] ["b.jpg"] ["c.jpg"] "a.jpg"
    fs_empty _ eq_refl eq_refl eq_refl)).
  discriminate.
Defined.

Lemma C8_no_images_witness :
  snd (extract w_no_jpg
         {| input_directory := "Set5"; output_directory := "wbc";
            save_to_csv := true |} fs_empty) = Ok tt /\
  snd (extract w_missing
         {| input_directory := "Set5"; output_directory := "wbc";
            save_to_csv := true |} fs_empty) = Raise FileNotFoundError.
Proof.
  split.
  - refine (proj1 (proj1 (C8_no_images w_no_jpg _ fs_empty) _ _ _ _));
      first [reflexivity | discriminate].
  - refine (proj1 (proj2 (C8_no_images w_missing _ fs_empty) _)).
    reflexivity.
Defined.

(** ** Which entries are images *)

Lemma substring_all (s : string) : substring 0 (String.length s) s = s.
Proof. induction s as [| c s IH]; simpl; [reflexivity | now rewrite IH]. Qed.

Lemma length_append (a b : string) :
  String.length (a +:+ b) = (String.length a + String.length b)%nat.
Proof. induction a as [| c a IH]; simpl; [reflexivity | now rewrite IH]. Qed.

Lemma substring_append (a b : string) (k : nat) :
  substring (String.length a) k (a +:+ b) = substring 0 k b.
Proof. induction a as [| c a IH]; simpl; [reflexivity | apply IH]. Qed.

Lemma substring_split (s : string) (m : nat) :
  (m <= String.length s)%nat ->
  s = substring 0 m s +:+ substring m (String.length s - m) s.
Proof.
  revert m. induction s as [| c s IH]; intros m Hm.
  - destruct m; reflexivity.
  - destruct m as [| m]; simpl.
    + now rewrite substring_all.
    + simpl in Hm.
      change (String c s =
              String c (substring 0 m s +:+
                        substring m (String.length s - m) s)).
      f_equal. apply IH. lia.
Qed.

(** [endswith] holds exactly of the strings that are some stem followed by
    the suffix. *)
Lemma endswith_spec (s suffix : string) :
  endswith s suffix = true <-> exists stem, s = stem +:+ suffix.
Proof.
  unfold endswith. rewrite andb_true_iff, Nat.leb_le, String.eqb_eq. split.
  - intros [Hle Hsub].
    exists (substring 0 (String.length s - String.length suffix) s).
    pose proof (substring_split s (String.length s - String.length suffix))
      as H.
    replace (String.length s - (String.length s - String.length suffix))%nat
      with (String.length suffix) in H by lia.
    rewrite Hsub in H. apply H. lia.
  - intros [stem ->]. rewrite length_append. split; [lia |].
    replace (String.length stem + String.length suffix - String.length suffix)%nat
      with (String.length stem) by lia.
    rewrite substring_append. apply substring_all.
Qed.

Lemma image_files_of_idemp (entries : list string) :
  image_files_of (image_files_of entries) = image_files_of entries.
Proof.
  unfold image_files_of. induction entries as [| f entries IH]; simpl.
  - reflexivity.
  - destruct (endswith f ".jpg") eqn:E; simpl; [rewrite E, IH |]; auto.
Qed.

(** [extract] sees a listing only through its [.jpg] entries. *)
Lemma extract_with_listing (w : World) (d : Detector) (entries : list string)
    (s : FS) :
  os_listdir w (input_directory d) = Some entries ->
  extract w d s = extract (with_listing w (image_files_of entries)) d s.
Proof.
  intros Hl. destruct (decide (output_directory d = "")) as [Hdir | Hdir].
  - now rewrite !extract_no_output_directory by assumption.
  - rewrite !extract_unfold by assumption. simpl.
    rewrite Hl, image_files_of_idemp. reflexivity.
Qed.

(** C10: the images of a run are exactly the entries of the listing whose
    name ends with [.jpg], in lower case; entries such as [.png], [.jpeg]
    or [.JPG] are not among them, and the run is the same as the run over
    the listing without them: they cause no output, no line and no
    error. *)
Theorem C10_only_jpg_entries (w : World) (d : Detector)
    (entries : list string) (s : FS) :
  (forall f, In f (image_files_of entries) <->
             In f entries /\ exists stem, f = stem +:+ ".jpg") /\
  (endswith "cell01.png" ".jpg" = false /\
   endswith "cell01.jpeg" ".jpg" = false /\
   endswith "cell01.JPG" ".jpg" = false) /\
  (os_listdir w (input_directory d) = Some entries ->
   extract w d s = extract (with_listing w (image_files_of entries)) d s /\
   (image_files_of entries <> [] ->
    extract w d s =
    (ensure_output_directory d ;;
     print (image_count_line d (length (image_files_of entries))) ;;
     process_files w d (image_files_of entries)) s)).
Proof.
  split; [| split].
  - intros f. unfold image_files_of. rewrite filter_In, endswith_spec.
    reflexivity.
  - repeat split; reflexivity.
  - intros Hl. split; [now apply extract_with_listing |].
    intros Hne. unfold extract, bind at 2, listdir. rewrite Hl.
    unfold ret. simpl.
    destruct (image_files_of entries); [congruence | reflexivity].
Qed.

Lemma C10_only_jpg_entries_witness :
  let d := {| input_directory := "Set5"; output_directory := "wbc";
              save_to_csv := true |} in
  extract w_worked d fs_empty =
  (ensure_output_directory d ;;
   print (image_count_line d 1) ;;
   process_files w_worked d ["cell01.jpg"]) fs_empty.
Proof.
  intros d.
  apply (proj2 (proj2 (proj2
    (C10_only_jpg_entries w_worked d ["cell01.jpg"] fs_empty)) eq_refl)).
  discriminate.
Defined.

(** * Further properties *)

(** ** The filter: faults, symmetries, integer form *)

(** The ratio test on nonnegative sides, without division. *)
Lemma too_elongated_cases (width height : Z) :
  0 <= width -> 0 <= height ->
  too_elongated width height =
  if height =? 0 then Raise ZeroDivisionError
  else Ok (negb ((7 * height <=? 10 * width) && (7 * width <=? 10 * height))).
Proof.
  intros Hw Hh. unfold too_elongated, py_truediv.
  destruct (Z.eqb_spec height 0) as [-> | Hh0]; [reflexivity |].
  simpl.
  assert (Hr1 : Qltb (inject_Z width / inject_Z height) ratio_limit
                = negb (7 * height <=? 10 * width)).
  { destruct height as [| q | q]; [congruence | | lia].
    destruct (7 * Z.pos q <=? 10 * width) eqn:E; simpl.
    - apply Qltb_ge. apply Z.leb_le in E.
      unfold ratio_limit, Qle, Qdiv, Qmult, Qinv, inject_Z. simpl. lia.
    - apply Qltb_lt. apply Z.leb_gt in E.
      unfold ratio_limit, Qlt, Qdiv, Qmult, Qinv, inject_Z. simpl. lia. }
  rewrite Hr1. destruct (7 * height <=? 10 * width) eqn:E1; simpl;
    [| reflexivity].
  apply Z.leb_le in E1.
  destruct (Z.eqb_spec width 0) as [-> | Hw0]; [lia |]. simpl. f_equal.
  destruct width as [| p | p]; [congruence | | lia].
  destruct (7 * Z.pos p <=? 10 * height) eqn:E; simpl.
  - apply Qltb_ge. apply Z.leb_le in E.
    unfold ratio_limit, Qle, Qdiv, Qmult, Qinv, inject_Z.
    destruct height; simpl; lia.
  - apply Qltb_lt. apply Z.leb_gt in E.
    unfold ratio_limit, Qlt, Qdiv, Qmult, Qinv, inject_Z.
    destruct height; simpl; lia.
Qed.

Lemma accepts_cases (confidence : Q) (left top right bottom : Z) :
  accepts confidence left top right bottom =
  if Qltb confidence conf_threshold then Ok false
  else if box_height top bottom =? 0 then Raise ZeroDivisionError
  else Ok ((7 * box_height top bottom <=? 10 * box_width left right) &&
           (7 * box_width left right <=? 10 * box_height top bottom)).
Proof.
  unfold accepts. destruct (Qltb confidence conf_threshold); [reflexivity |].
  rewrite too_elongated_cases by (unfold box_width, box_height; lia).
  destruct (box_height top bottom =? 0); [reflexivity |].
  simpl. now rewrite negb_involutive.
Qed.

(** X1: the filter faults exactly on the boxes of height zero whose
    confidence reaches the threshold, the single-precision value of 0.35,
    and the fault is a [ZeroDivisionError]; below the threshold even a flat
    box is rejected quietly. *)
Theorem accepts_raises_iff (confidence : Q) (left top right bottom : Z)
    (e : exn) :
  accepts confidence left top right bottom = Raise e <->
  e = ZeroDivisionError /\ (11744051 # 33554432 <= confidence)%Q /\ top = bottom.
Proof.
  rewrite accepts_cases. change (11744051 # 33554432)%Q with conf_threshold.
  destruct (Qltb confidence conf_threshold) eqn:Ec.
  - apply Qltb_lt in Ec. split; [discriminate |].
    intros (_ & Hc & _). exfalso. exact (Qlt_not_le _ _ Ec Hc).
  - apply Qltb_ge in Ec. unfold box_height.
    destruct (Z.eqb_spec (Z.abs (top - bottom)) 0) as [H0 | H0].
    + split.
      * intros [= <-]. repeat split; [assumption | lia].
      * intros (-> & _ & _). reflexivity.
    + split; [discriminate |]. intros (_ & _ & ->). lia.
Qed.

(** X2: the verdict depends on the side lengths only: it is the same for a
    box moved by any offset and for a box given by its opposite corners. *)
Theorem accepts_position_free (confidence : Q) (left top right bottom : Z)
    (dx dy : Z) :
  accepts confidence (left + dx) (top + dy) (right + dx) (bottom + dy)
    = accepts confidence left top right bottom /\
  accepts confidence right bottom left top
    = accepts confidence left top right bottom.
Proof.
  rewrite !accepts_cases. unfold box_width, box_height.
  replace (left + dx - (right + dx)) with (left - right) by lia.
  replace (top + dy - (bottom + dy)) with (top - bottom) by lia.
  replace (right - left) with (- (left - right)) by lia.
  replace (bottom - top) with (- (top - bottom)) by lia.
  rewrite !Z.abs_opp. split; reflexivity.
Qed.

(** X3: integer form of the filter: a detection is accepted exactly when
    its confidence reaches the single-precision value of 0.35, its box is
    not flat, and 7 * height <= 10 * width and 7 * width <= 10 * height. *)
Theorem accepts_integer_form (confidence : Q) (left top right bottom : Z) :
  accepts confidence left top right bottom = Ok true <->
  (11744051 # 33554432 <= confidence)%Q /\
  0 < box_height top bottom /\
  7 * box_height top bottom <= 10 * box_width left right /\
  7 * box_width left right <= 10 * box_height top bottom.
Proof.
  rewrite accepts_cases. change (11744051 # 33554432)%Q with conf_threshold.
  assert (Hh : 0 <= box_height top bottom) by (unfold box_height; lia).
  destruct (Qltb confidence conf_threshold) eqn:Ec.
  - apply Qltb_lt in Ec. split; [discriminate |].
    intros (Hc & _). exfalso. exact (Qlt_not_le _ _ Ec Hc).
  - apply Qltb_ge in Ec.
    destruct (Z.eqb_spec (box_height top bottom) 0) as [H0 | H0].
    + split; [discriminate | lia].
    + split.
      * intros [= H]. apply andb_true_iff in H. destruct H as [H1 H2].
        apply Z.leb_le in H1, H2. repeat split; [assumption | lia ..].
      * intros (_ & _ & H1 & H2). f_equal. apply andb_true_iff.
        split; apply Z.leb_le; assumption.
Qed.

(** X4: for a box with nonzero sides the verdict is the same for the box
    and for its transpose (width and height exchanged). *)
Theorem accepts_transpose (confidence : Q) (left top right bottom : Z) :
  left <> right -> top <> bottom ->
  accepts confidence top left bottom right
    = accepts confidence left top right bottom.
Proof.
  intros Hw Hh. rewrite !accepts_cases. unfold box_width, box_height.
  destruct (Qltb confidence conf_threshold); [reflexivity |].
  destruct (Z.eqb_spec (Z.abs (left - right)) 0); [lia |].
  destruct (Z.eqb_spec (Z.abs (top - bottom)) 0); [lia |].
  now rewrite andb_comm.
Qed.

Lemma accepts_transpose_witness :
  accepts (812 # 1000) 160 150 200 190 = accepts (812 # 1000) 150 160 190 200.
Proof. apply accepts_transpose; discriminate. Defined.

(** X5: an accepted detection stays accepted when only its confidence
    grows. *)
Theorem accepts_confidence_monotone (c c' : Q) (left top right bottom : Z) :
  accepts c left top right bottom = Ok true ->
  (c <= c')%Q ->
  accepts c' left top right bottom = Ok true.
Proof.
  rewrite !accepts_cases. intros H Hcc.
  destruct (Qltb c conf_threshold) eqn:Ec; [discriminate |].
  apply Qltb_ge in Ec.
  assert (Ec' : Qltb c' conf_threshold = false).
  { apply Qltb_ge. now apply Qle_trans with c. }
  now rewrite Ec'.
Qed.

Lemma accepts_confidence_monotone_witness :
  accepts (9 # 10) 150 160 190 200 = Ok true.
Proof.
  apply (accepts_confidence_monotone (812 # 1000) (9 # 10)).
  - reflexivity.
  - discriminate.
Defined.

(** ** The crop window: size, content, form of the spans *)

(** X6: for a box inside the image the crop is never thinner than 100
    pixels, or than the image when the image is thinner than that. *)
Theorem crop_window_min_span (left top right bottom W H : Z)
    (left' top' right' bottom' : pynum) :
  0 <= left <= right -> right <= W ->
  0 <= top <= bottom -> bottom <= H ->
  crop_window (box_mid left top right bottom) (W, H)
    = (left', top', right', bottom') ->
  (Qmin 100 (inject_Z W) <= pyval right' - pyval left' /\
   Qmin 100 (inject_Z H) <= pyval bottom' - pyval top')%Q.
Proof.
  intros [Hl0 Hlr] HrW [Ht0 Htb] HbH E.
  destruct (crop_window_values _ _ _ _ _ _ E) as (Hl & Ht & Hr & Hb).
  simpl in Hl, Ht, Hr, Hb.
  destruct (mid_between left right Hlr) as [Hx0 Hx1].
  destruct (mid_between top bottom Htb) as [Hy0 Hy1].
  assert (Hl0q : (0 <= inject_Z left)%Q) by (now rewrite <- (Zle_Qle 0)).
  assert (Ht0q : (0 <= inject_Z top)%Q) by (now rewrite <- (Zle_Qle 0)).
  assert (HrWq : (inject_Z right <= inject_Z W)%Q) by (now rewrite <- Zle_Qle).
  assert (HbHq : (inject_Z bottom <= inject_Z H)%Q) by (now rewrite <- Zle_Qle).
  set (cx := (inject_Z (right + left) / 2)%Q) in *.
  set (cy := (inject_Z (bottom + top) / 2)%Q) in *.
  rewrite Hl, Ht, Hr, Hb.
  split.
  - destruct (Q.max_spec (cx - 100) 0) as [[? ->] | [? ->]];
      destruct (Q.min_spec (cx + 100) (inject_Z W)) as [[? ->] | [? ->]];
      destruct (Q.min_spec 100 (inject_Z W)) as [[? ->] | [? ->]]; lra.
  - destruct (Q.max_spec (cy - 100) 0) as [[? ->] | [? ->]];
      destruct (Q.min_spec (cy + 100) (inject_Z H)) as [[? ->] | [? ->]];
      destruct (Q.min_spec 100 (inject_Z H)) as [[? ->] | [? ->]]; lra.
Qed.

Lemma crop_window_min_span_witness :
  (Qmin 100 (inject_Z 400) <= pyval (PyFloat (260 # 2)) - pyval (PyInt 0))%Q.
Proof.
  refine (proj1 (crop_window_min_span 10 160 50 200 400 400
    (PyInt 0) (PyFloat (160 # 2)) (PyFloat (260 # 2)) (PyFloat (560 # 2))
    _ _ _ _ _)); first [reflexivity | lia].
Defined.

Lemma half_sum_bounds (a b : Z) :
  b - a <= 200 ->
  (inject_Z (b + a) / 2 - 100 <= inject_Z a /\
   inject_Z b <= inject_Z (b + a) / 2 + 100)%Q.
Proof.
  intros Hab.
  unfold Qle, Qdiv, Qmult, Qinv, Qminus, Qplus, Qopp, inject_Z. simpl. lia.
Qed.

(** X7: a box inside the image that is at most 200 pixels wide and high
    lies entirely inside its crop. *)
Theorem crop_window_contains_box (left top right bottom W H : Z)
    (left' top' right' bottom' : pynum) :
  0 <= left -> right <= W -> right - left <= 200 ->
  0 <= top -> bottom <= H -> bottom - top <= 200 ->
  crop_window (box_mid left top right bottom) (W, H)
    = (left', top', right', bottom') ->
  (pyval left' <= inject_Z left /\ inject_Z right <= pyval right' /\
   pyval top' <= inject_Z top /\ inject_Z bottom <= pyval bottom')%Q.
Proof.
  intros Hl0 HrW Hw Ht0 HbH Hh E.
  destruct (crop_window_values _ _ _ _ _ _ E) as (Hl & Ht & Hr & Hb).
  simpl in Hl, Ht, Hr, Hb.
  destruct (half_sum_bounds left right Hw) as [Hx0 Hx1].
  destruct (half_sum_bounds top bottom Hh) as [Hy0 Hy1].
  assert (Hl0q : (0 <= inject_Z left)%Q) by (now rewrite <- (Zle_Qle 0)).
  assert (Ht0q : (0 <= inject_Z top)%Q) by (now rewrite <- (Zle_Qle 0)).
  assert (HrWq : (inject_Z right <= inject_Z W)%Q) by (now rewrite <- Zle_Qle).
  assert (HbHq : (inject_Z bottom <= inject_Z H)%Q) by (now rewrite <- Zle_Qle).
  rewrite Hl, Ht, Hr, Hb. repeat split.
  - now apply Q.max_lub.
  - now apply Q.min_glb.
  - now apply Q.max_lub.
  - now apply Q.min_glb.
Qed.

Lemma crop_window_contains_box_witness :
  (pyval (PyFloat (140 # 2)) <= inject_Z 150)%Q.
Proof.
  refine (proj1 (crop_window_contains_box 150 160 190 200 400 400
    (PyFloat (140 # 2)) (PyFloat (160 # 2))
    (PyFloat (540 # 2)) (PyFloat (560 # 2)) _ _ _ _ _ _ _));
    first [reflexivity | lia].
Defined.

(** X8: the spans that go into the file name and the table are integers
    only when the window is cut on both sides (then they are the image
    width, or height); in every other case they are floats, printed with a
    decimal point. *)
Theorem crop_window_span_form (mid : Q * Q) (W H : Z)
    (left' top' right' bottom' : pynum) :
  crop_window mid (W, H) = (left', top', right', bottom') ->
  py_sub right' left' =
    (if Qltb (fst mid - 100) 0 && Qltb (inject_Z W) (fst mid + 100)
     then PyInt W else PyFloat (pyval right' - pyval left')) /\
  py_sub bottom' top' =
    (if Qltb (snd mid - 100) 0 && Qltb (inject_Z H) (snd mid + 100)
     then PyInt H else PyFloat (pyval bottom' - pyval top')).
Proof.
  unfold crop_window, py_max, py_min, py_lt. simpl. intros [= <- <- <- <-].
  change (inject_Z 0) with 0%Q.
  split.
  - destruct (Qltb (fst mid - 100) 0); destruct (Qltb _ (fst mid + 100));
      simpl; rewrite ?Z.sub_0_r; reflexivity.
  - destruct (Qltb (snd mid - 100) 0); destruct (Qltb _ (snd mid + 100));
      simpl; rewrite ?Z.sub_0_r; reflexivity.
Qed.

Lemma crop_window_span_form_witness :
  py_sub (PyInt 150) (PyInt 0) = PyInt 150.
Proof.
  exact (proj1 (crop_window_span_form (box_mid 60 60 100 100) 150 150
    (PyInt 0) (PyInt 0) (PyInt 150) (PyInt 150) eq_refl)).
Defined.

(** ** Names of the crops *)

Lemma append_assoc (a b c : string) : (a +:+ b) +:+ c = a +:+ (b +:+ c).
Proof.
  induction a as [| x a IH]; [reflexivity |].
  change (String x ((a +:+ b) +:+ c) = String x (a +:+ (b +:+ c))).
  now rewrite IH.
Qed.

Lemma endswith_append (a b suffix : string) :
  endswith b suffix = true -> endswith (a +:+ b) suffix = true.
Proof.
  rewrite !endswith_spec. intros [stem ->]. exists (a +:+ stem).
  symmetry. apply append_assoc.
Qed.

(** X9: every crop is written under a name that ends with [.jpg], so a
    listing that contains crops counts each of them as an input image. *)
Theorem crop_filename_is_image (confidence filename : string) (mid : Q * Q)
    (region : pynum * pynum * pynum * pynum) (i : nat) (entries : list string) :
  endswith (crop_filename confidence filename mid region i) ".jpg" = true /\
  (In (crop_filename confidence filename mid region i) entries ->
   In (crop_filename confidence filename mid region i)
      (image_files_of entries)).
Proof.
  assert (He : endswith (crop_filename confidence filename mid region i) ".jpg"
               = true).
  { destruct region as [[[left' top'] right'] bottom']. unfold crop_filename.
    repeat apply endswith_append. apply endswith_spec. now exists "". }
  split; [exact He |].
  intros Hin. unfold image_files_of. apply filter_In. auto.
Qed.

Lemma crop_filename_is_image_witness :
  In "0.81_cell01.jpg_x_170.0_y_180.0_h_200.0_w_200.0_result0.jpg"
     (image_files_of
        ["notes.txt";
         "0.81_cell01.jpg_x_170.0_y_180.0_h_200.0_w_200.0_result0.jpg"]).
Proof.
  apply (proj2 (crop_filename_is_image "0.81" "cell01.jpg"
    (box_mid 150 160 190 200)
    (crop_window (box_mid 150 160 190 200) (400, 400)) 0 _)).
  right. left. vm_compute. reflexivity.
Defined.

(** ** The crops of a run *)

Lemma replay_app (record : bool) (evs1 evs2 : list Saved) (s : FS) :
  replay record (evs1 ++ evs2) s = replay record evs2 (replay record evs1 s).
Proof. apply fold_left_app. Qed.

Lemma replay_dirs (record : bool) (evs : list Saved) (s : FS) :
  dirs (replay record evs s) = dirs s.
Proof. revert s. induction evs as [| e evs IH]; intros s; [reflexivity |].
  simpl. now rewrite IH. Qed.

Lemma replay_stdout (record : bool) (evs : list Saved) (s : FS) :
  stdout (replay record evs s) = stdout s.
Proof. revert s. induction evs as [| e evs IH]; intros s; [reflexivity |].
  simpl. now rewrite IH. Qed.

Lemma replay_csv (record : bool) (evs : list Saved) (s : FS) :
  csv (replay record evs s) =
  csv s ++ (if record then map saved_row evs else []).
Proof.
  revert s. induction evs as [| e evs IH]; intros s; simpl.
  - now destruct record; rewrite app_nil_r.
  - rewrite IH. simpl. destruct record; simpl.
    + now rewrite <- app_assoc.
    + now rewrite !app_nil_r.
Qed.

Lemma replay_files (record : bool) (evs : list Saved) (s : FS) :
  files (replay record evs s) = write_all evs (files s).
Proof.
  revert s. induction evs as [| e evs IH]; intros s; [reflexivity |].
  simpl. now rewrite IH.
Qed.

Lemma write_all_lookup (evs : list Saved) (m : gmap string Crop)
    (p : string) (c : Crop) :
  write_all evs m !! p = Some c ->
  m !! p = Some c \/
  exists e, In e evs /\ saved_path e = p /\ saved_crop e = c.
Proof.
  revert m. induction evs as [| e evs IH]; intros m; simpl; [auto |].
  intros H. destruct (IH _ H) as [Hm | (e' & Hin & Hp & Hc)].
  - destruct (decide (saved_path e = p)) as [Heq | Hne].
    + rewrite Heq, lookup_insert_eq in Hm. injection Hm as Hm.
      right. exists e. auto.
    + rewrite lookup_insert_ne in Hm by assumption. auto.
  - right. exists e'. auto.
Qed.

Lemma write_all_dom (evs : list Saved) (m : gmap string Crop) (p : string) :
  p ∈ dom (write_all evs m) <->
  p ∈ dom m \/ exists e, In e evs /\ saved_path e = p.
Proof.
  revert m. induction evs as [| e evs IH]; intros m; simpl.
  - split; [auto | intros [H | (e & [] & _)]; exact H].
  - rewrite IH, dom_insert, elem_of_union, elem_of_singleton. split.
    + intros [[-> | H] | (e' & Hin & Hp)]; eauto 6.
    + intros [H | (e' & [<- | Hin] & Hp)]; eauto 6.
Qed.

Lemma save_crop_saved (d : Detector) (image : Image) (filename : string)
    (i : nat) (box : Boxes) (left top right bottom : Z) (s : FS) :
  save_crop d image filename i box left top right bottom s =
  (replay_one (save_to_csv d) s
     (saved_of d image filename i box left top right bottom), Ok tt).
Proof.
  unfold save_crop, saved_of.
  destruct (crop_window _ _) as [[[left' top'] right'] bottom'].
  unfold bind, image_save, _save_to_csv, csv_append, replay_one, ret. simpl.
  destruct (save_to_csv d); simpl; [reflexivity |].
  now rewrite app_nil_r.
Qed.

Lemma runs_for_each (record : bool) {A} (body : A -> M unit)
    (f : A -> list Saved * outcome unit) (l : list A) :
  (forall x, runs record (body x) (f x)) ->
  runs record (for_each l body) (trace_each f l).
Proof.
  intros Hb. induction l as [| x l IH]; intros s; simpl; [reflexivity |].
  unfold bind. rewrite (Hb x s).
  destruct (f x) as [evs [[] | e]]; simpl; [| reflexivity].
  rewrite (IH _). destruct (trace_each f l) as [evs' o]. simpl.
  now rewrite replay_app.
Qed.

Section Runs.

Variable w : World.
Variable d : Detector.

Lemma runs_process_find image filename i box find :
  runs (save_to_csv d) (process_find d image filename i box find)
       (trace_find d image filename i box find).
Proof.
  destruct find as [[[x1 y1] x2] y2]. intros s.
  unfold process_find, trace_find, bind, lift.
  destruct (too_elongated _ _) as [[|] | e]; simpl; try reflexivity.
  apply save_crop_saved.
Qed.

Lemma runs_process_box image filename i box :
  runs (save_to_csv d) (process_box d image filename i box)
       (trace_box d image filename i box).
Proof.
  unfold process_box, trace_box.
  destruct (Qltb (conf box) conf_threshold); [intros s; reflexivity |].
  apply runs_for_each. intros find. apply runs_process_find.
Qed.

Lemma runs_process_image image_path filename :
  runs (save_to_csv d) (_process_image w d image_path filename)
       (trace_image w d image_path filename).
Proof.
  unfold _process_image, trace_image, image_open. intros s. unfold bind.
  destruct (Image_open w image_path) as [image |]; simpl; [| reflexivity].
  apply (runs_for_each (save_to_csv d)
           (fun '(i, result) => for_each result (process_box d image filename i))
           (fun '(i, result) => trace_each (trace_box d image filename i) result)).
  intros [i result]. apply runs_for_each. intros box. apply runs_process_box.
Qed.

Lemma runs_process_files image_files :
  runs (save_to_csv d) (process_files w d image_files)
       (trace_files w d image_files).
Proof.
  unfold process_files, trace_files. apply runs_for_each.
  intros filename. apply runs_process_image.
Qed.

End Runs.

Lemma trace_each_in {A} (f : A -> list Saved * outcome unit) (l : list A)
    (e : Saved) :
  In e (fst (trace_each f l)) -> exists x, In x l /\ In e (fst (f x)).
Proof.
  induction l as [| x l IH]; simpl; [intros [] |].
  destruct (f x) as [evs [[] | err]] eqn:Ef; simpl.
  - destruct (trace_each f l) as [evs' o]. simpl in *.
    rewrite in_app_iff. intros [H | H].
    + exists x. rewrite Ef. auto.
    + destruct (IH H) as (y & Hy & He). eauto.
  - intros H. exists x. rewrite Ef. auto.
Qed.

Lemma trace_each_ok {A} (f : A -> list Saved * outcome unit) (l : list A)
    (x : A) :
  snd (trace_each f l) = Ok tt -> In x l ->
  snd (f x) = Ok tt /\
  forall e, In e (fst (f x)) -> In e (fst (trace_each f l)).
Proof.
  induction l as [| y l IH]; simpl; [intros _ [] |].
  destruct (f y) as [evs [[] | err]] eqn:Ef; simpl; [| discriminate].
  destruct (trace_each f l) as [evs' o]. simpl in *.
  intros Ho [-> | Hin].
  - rewrite Ef. split; [reflexivity |]. intros e He. apply in_app_iff. auto.
  - destruct (IH Ho Hin) as [Hx Hsub]. split; [exact Hx |].
    intros e He. apply in_app_iff. auto.
Qed.

Lemma enumerate_from_In {A} (l : list A) (a i : nat) (x : A) :
  In (i, x) (combine (seq a (length l)) l) <->
  (a <= i)%nat /\ nth_error l (i - a) = Some x.
Proof.
  revert a. induction l as [| y l IH]; intros a; simpl.
  - split; [intros [] |]. intros [_ H]. now destruct (i - a)%nat.
  - rewrite IH. split.
    + intros [[= <- <-] | [Hle Hn]].
      * split; [lia |]. now rewrite Nat.sub_diag.
      * split; [lia |].
        replace (i - a)%nat with (S (i - S a)) by lia. exact Hn.
    + intros [Hle Hn]. destruct (i - a)%nat as [| k] eqn:Ek.
      * left. injection Hn as ->. f_equal. lia.
      * right. split; [lia |].
        replace (i - S a)%nat with k by lia. exact Hn.
Qed.

Lemma enumerate_In {A} (l : list A) (i : nat) (x : A) :
  In (i, x) (enumerate l) <-> nth_error l i = Some x.
Proof.
  unfold enumerate. rewrite enumerate_from_In, Nat.sub_0_r.
  split; [tauto | split; [lia | assumption]].
Qed.

Lemma accepts_true_split (confidence : Q) (left top right bottom : Z) :
  accepts confidence left top right bottom = Ok true <->
  Qltb confidence conf_threshold = false /\
  too_elongated (box_width left right) (box_height top bottom) = Ok false.
Proof.
  unfold accepts. destruct (Qltb confidence conf_threshold).
  - split; [discriminate | intros [H _]; discriminate].
  - destruct (too_elongated _ _) as [[|] | e]; simpl;
      split; try discriminate; try tauto; intros [_ H]; discriminate.
Qed.

Section Traces.

Variable w : World.
Variable d : Detector.

Lemma trace_files_sound (image_files : list string) (e : Saved) :
  In e (fst (trace_files w d image_files)) ->
  exists filename image i result box x1 y1 x2 y2,
    In filename image_files /\
    Image_open w (path_join (input_directory d) filename) = Some image /\
    nth_error (model w image) i = Some result /\
    In box result /\
    In (x1, y1, x2, y2) (xyxy box) /\
    accepts (conf box) (py_int x1) (py_int y1) (py_int x2) (py_int y2)
      = Ok true /\
    e = saved_of d image filename i box
          (py_int x1) (py_int y1) (py_int x2) (py_int y2).
Proof.
  intros He. unfold trace_files in He.
  destruct (trace_each_in _ _ _ He) as (filename & Hfile & Himg).
  unfold trace_image in Himg.
  destruct (Image_open w _) as [image |] eqn:Hopen; [| destruct Himg].
  destruct (trace_each_in _ _ _ Himg) as ([i result] & Hres & Hgrp).
  apply enumerate_In in Hres.
  destruct (trace_each_in _ _ _ Hgrp) as (box & Hbox & Hb).
  unfold trace_box in Hb.
  destruct (Qltb (conf box) conf_threshold) eqn:Ec; [destruct Hb |].
  destruct (trace_each_in _ _ _ Hb) as ([[[x1 y1] x2] y2] & Hfind & Hf).
  unfold trace_find in Hf.
  destruct (too_elongated _ _) as [[|] | err] eqn:Et; simpl in Hf;
    try contradiction.
  destruct Hf as [<- | []].
  exists filename, image, i, result, box, x1, y1, x2, y2.
  repeat split; auto. apply accepts_true_split. auto.
Qed.

Lemma trace_files_complete (image_files : list string) (filename : string)
    (image : Image) (i : nat) (result : list Boxes) (box : Boxes)
    (x1 y1 x2 y2 : Q) :
  snd (trace_files w d image_files) = Ok tt ->
  In filename image_files ->
  Image_open w (path_join (input_directory d) filename) = Some image ->
  nth_error (model w image) i = Some result ->
  In box result ->
  In (x1, y1, x2, y2) (xyxy box) ->
  accepts (conf box) (py_int x1) (py_int y1) (py_int x2) (py_int y2)
    = Ok true ->
  In (saved_of d image filename i box
        (py_int x1) (py_int y1) (py_int x2) (py_int y2))
     (fst (trace_files w d image_files)).
Proof.
  intros Hok Hfile Hopen Hres Hbox Hfind Hacc.
  destruct (trace_each_ok _ _ _ Hok Hfile) as [Hok1 Hsub1]. apply Hsub1.
  unfold trace_image in *. rewrite Hopen in *.
  apply enumerate_In in Hres.
  destruct (trace_each_ok _ _ _ Hok1 Hres) as [Hok2 Hsub2]. apply Hsub2.
  destruct (trace_each_ok _ _ _ Hok2 Hbox) as [Hok3 Hsub3]. apply Hsub3.
  apply accepts_true_split in Hacc. destruct Hacc as [Hc Ht].
  unfold trace_box in *. rewrite Hc in *.
  destruct (trace_each_ok _ _ _ Hok3 Hfind) as [_ Hsub4]. apply Hsub4.
  unfold trace_find. rewrite Ht. left. reflexivity.
Qed.

(** [extract] over a directory that can be listed, as a trace. *)
Lemma extract_trace (entries : list string) (s : FS) :
  output_directory d <> "" ->
  os_listdir w (input_directory d) = Some entries ->
  files (fst (extract w d s)) =
    write_all (fst (trace_files w d (image_files_of entries))) (files s) /\
  csv (fst (extract w d s)) =
    csv s ++ (if save_to_csv d
              then map saved_row
                     (fst (trace_files w d (image_files_of entries)))
              else []) /\
  snd (extract w d s) = snd (trace_files w d (image_files_of entries)).
Proof.
  intros Hdir Hl. rewrite (extract_unfold w d s Hdir), Hl.
  destruct (ensure_output_directory_spec d s Hdir) as (s0 & -> & Hf & Hc & _).
  simpl. destruct (image_files_of entries) as [| f l] eqn:El; simpl.
  - rewrite Hf, Hc. now destruct (save_to_csv d); rewrite app_nil_r.
  - unfold bind, print.
    rewrite (runs_process_files w d (f :: l)). cbn [fst snd].
    rewrite replay_files, replay_csv. cbn [files csv]. rewrite Hf, Hc. auto.
Qed.

End Traces.

Lemma trace_each_ok_iff {A} (f : A -> list Saved * outcome unit)
    (l : list A) :
  snd (trace_each f l) = Ok tt <-> forall x, In x l -> snd (f x) = Ok tt.
Proof.
  split.
  - intros Hok x Hin. exact (proj1 (trace_each_ok f l x Hok Hin)).
  - induction l as [| x l IH]; simpl; [reflexivity |]. intros H.
    pose proof (H x (or_introl eq_refl)) as Hx.
    destruct (f x) as [evs [[] | err]]; simpl in Hx; [| discriminate].
    destruct (trace_each f l) as [evs' o] eqn:Et. simpl in *.
    apply IH. intros y Hy. apply H. auto.
Qed.

Lemma trace_each_nil {A} (f : A -> list Saved * outcome unit) (l : list A) :
  (forall x, In x l -> f x = ([], Ok tt)) -> trace_each f l = ([], Ok tt).
Proof.
  induction l as [| x l IH]; intros H; simpl; [reflexivity |].
  rewrite (H x (or_introl eq_refl)), IH; [reflexivity |].
  intros y Hy. apply H. right. exact Hy.
Qed.

Lemma trace_find_ok (d : Detector) (image : Image) (filename : string)
    (i : nat) (box : Boxes) (x1 y1 x2 y2 : Q) :
  snd (trace_find d image filename i box (x1, y1, x2, y2)) = Ok tt <->
  py_int y1 <> py_int y2.
Proof.
  unfold trace_find.
  rewrite too_elongated_cases by (unfold box_width, box_height; lia).
  unfold box_height.
  destruct (Z.eqb_spec (Z.abs (py_int y1 - py_int y2)) 0) as [H0 | H0]; simpl.
  - split; [discriminate | lia].
  - destruct (negb _); simpl; split; auto; lia.
Qed.

Section Outputs.

Variable w : World.
Variable d : Detector.

Lemma extract_missing_listing (s : FS) :
  os_listdir w (input_directory d) = None ->
  snd (extract w d s) = Raise FileNotFoundError /\
  files (fst (extract w d s)) = files s /\
  csv (fst (extract w d s)) = csv s /\
  stdout (fst (extract w d s)) = stdout s.
Proof.
  intros Hl. destruct (decide (output_directory d = "")) as [Hdir | Hdir].
  - rewrite (extract_no_output_directory w d s Hdir). simpl. auto.
  - rewrite (extract_unfold w d s Hdir), Hl.
    destruct (ensure_output_directory_spec d s Hdir)
      as (s0 & -> & Hf & Hc & Ho).
    simpl. auto.
Qed.

Lemma detection_of_trace (entries : list string) (e : Saved) :
  In e (fst (trace_files w d (image_files_of entries))) ->
  detection_of w d entries e.
Proof.
  intros He.
  destruct (trace_files_sound w d _ _ He)
    as (filename & image & i & result & box & x1 & y1 & x2 & y2 & H).
  exists filename, image, i, result, box, x1, y1, x2, y2. exact H.
Qed.

(** X10: over a directory that can be listed, [extract] saves a sequence of
    crops each of which belongs to an accepted detection of a listed [.jpg]
    image that decodes; the output files are those crops written in that
    order over the files that were there, and with recording on the table
    gains exactly their rows, one per crop, in the same order. *)
Theorem extract_saves_detections (entries : list string) (s : FS) :
  os_listdir w (input_directory d) = Some entries ->
  exists evs,
    Forall (detection_of w d entries) evs /\
    files (fst (extract w d s)) = write_all evs (files s) /\
    csv (fst (extract w d s)) =
      csv s ++ (if save_to_csv d then map saved_row evs else []).
Proof.
  intros Hl. destruct (decide (output_directory d = "")) as [Hdir | Hdir].
  - exists []. rewrite (extract_no_output_directory w d s Hdir). simpl.
    split; [constructor |]. split; [reflexivity |].
    now destruct (save_to_csv d); rewrite app_nil_r.
  - destruct (extract_trace w d entries s Hdir Hl) as (Hf & Hc & _).
    exists (fst (trace_files w d (image_files_of entries))).
    split; [| auto]. apply List.Forall_forall. intros e He.
    now apply detection_of_trace.
Qed.

(** X11: [extract] writes no file without an accepted detection: every
    output file it leaves was there before with the same content or is the
    crop of an accepted detection of a listed image. *)
Theorem extract_files_sound (s : FS) (p : string) (c : Crop) :
  files (fst (extract w d s)) !! p = Some c ->
  files s !! p = Some c \/
  exists entries e,
    os_listdir w (input_directory d) = Some entries /\
    detection_of w d entries e /\ saved_path e = p /\ saved_crop e = c.
Proof.
  destruct (decide (output_directory d = "")) as [Hdir | Hdir].
  { rewrite (extract_no_output_directory w d s Hdir). simpl. auto. }
  destruct (os_listdir w (input_directory d)) as [entries |] eqn:Hl.
  - destruct (extract_trace w d entries s Hdir Hl) as (Hf & _ & _).
    rewrite Hf. intros H.
    destruct (write_all_lookup _ _ _ _ H) as [Hs | (e & He & Hp & Hc)];
      [auto |].
    right. exists entries, e. repeat split; auto.
    now apply detection_of_trace.
  - destruct (extract_missing_listing s Hl) as (_ & Hf & _). rewrite Hf. auto.
Qed.

(** X12: when [extract] ends normally, every accepted detection of every
    listed image has its crop among the output files and, with recording
    on, its row in the table. *)
Theorem extract_complete (entries : list string) (s : FS) (e : Saved) :
  os_listdir w (input_directory d) = Some entries ->
  snd (extract w d s) = Ok tt ->
  detection_of w d entries e ->
  saved_path e ∈ dom (files (fst (extract w d s))) /\
  (save_to_csv d = true -> In (saved_row e) (csv (fst (extract w d s)))).
Proof.
  intros Hl Hok
    (filename & image & i & result & box & x1 & y1 & x2 & y2 &
     Hfile & Hopen & Hres & Hbox & Hfind & Hacc & ->).
  assert (Hdir : output_directory d <> "").
  { intros Hdir. rewrite (extract_no_output_directory w d s Hdir) in Hok.
    discriminate. }
  destruct (extract_trace w d entries s Hdir Hl) as (Hf & Hc & Ho).
  rewrite Ho in Hok.
  pose proof (trace_files_complete w d _ _ _ _ _ _ _ _ _ _
                Hok Hfile Hopen Hres Hbox Hfind Hacc) as Hin.
  split.
  - rewrite Hf. apply write_all_dom. right. eauto.
  - intros Hrec. rewrite Hc, Hrec. apply in_app_iff. right.
    now apply in_map.
Qed.

(** X13: when [extract] ends normally over a directory that can be
    listed, the output directory has a name, every listed [.jpg] entry
    decodes, and no detection at or above the confidence threshold has a box
    of height zero. *)
Theorem extract_ok_only_if (entries : list string) (s : FS) :
  os_listdir w (input_directory d) = Some entries ->
  snd (extract w d s) = Ok tt ->
  output_directory d <> "" /\
  forall filename, In filename (image_files_of entries) ->
    exists image,
      Image_open w (path_join (input_directory d) filename) = Some image /\
      forall result box x1 y1 x2 y2,
        In result (model w image) -> In box result ->
        In (x1, y1, x2, y2) (xyxy box) ->
        (11744051 # 33554432 <= conf box)%Q ->
        py_int y1 <> py_int y2.
Proof.
  intros Hl Hok.
  assert (Hdir : output_directory d <> "").
  { intros Hdir. rewrite (extract_no_output_directory w d s Hdir) in Hok.
    discriminate. }
  split; [exact Hdir |].
  destruct (extract_trace w d entries s Hdir Hl) as (_ & _ & Ho).
  rewrite Ho in Hok. unfold trace_files in Hok.
  rewrite trace_each_ok_iff in Hok.
  change (11744051 # 33554432)%Q with conf_threshold.
  intros filename Hfile. pose proof (Hok filename Hfile) as H.
  unfold trace_image in H.
  destruct (Image_open w _) as [image |]; [| discriminate].
  exists image. split; [reflexivity |].
  intros result box x1 y1 x2 y2 Hres Hbox Hfind Hc.
  destruct (In_nth_error _ _ Hres) as [i Hi]. apply enumerate_In in Hi.
  rewrite trace_each_ok_iff in H. specialize (H (i, result) Hi).
  rewrite trace_each_ok_iff in H. specialize (H box Hbox).
  unfold trace_box in H. apply Qltb_ge in Hc. rewrite Hc in H.
  rewrite trace_each_ok_iff in H. specialize (H _ Hfind).
  now apply trace_find_ok in H.
Qed.

(** The rows [extract] appends: six cells each, the first one the name of
    a listed [.jpg] entry. *)
Lemma extract_rows :
  exists rows,
    Forall (fun row => length row = 6%nat /\
                       exists filename rest,
                         row = filename :: rest /\
                         endswith filename ".jpg" = true) rows /\
    forall s, csv (fst (extract w d s)) =
              csv s ++ (if save_to_csv d then rows else []).
Proof.
  destruct (decide (output_directory d = "")) as [Hdir | Hdir].
  { exists []. split; [constructor |]. intros s.
    rewrite (extract_no_output_directory w d s Hdir). simpl.
    now destruct (save_to_csv d); rewrite app_nil_r. }
  destruct (os_listdir w (input_directory d)) as [entries |] eqn:Hl.
  - exists (map saved_row (fst (trace_files w d (image_files_of entries)))).
    split.
    + apply List.Forall_forall. intros row Hrow. apply in_map_iff in Hrow.
      destruct Hrow as (e & <- & He).
      destruct (trace_files_sound w d _ _ He)
        as (filename & image & i & result & box & x1 & y1 & x2 & y2 &
            Hfile & _ & _ & _ & _ & _ & ->).
      unfold saved_of.
      destruct (crop_window _ _) as [[[left' top'] right'] bottom']. simpl.
      split; [reflexivity |]. eexists _, _. split; [reflexivity |].
      unfold image_files_of in Hfile. apply filter_In in Hfile. tauto.
    + intros s.
      now destruct (extract_trace w d entries s Hdir Hl) as (_ & Hc & _).
  - exists []. split; [constructor |]. intros s.
    destruct (extract_missing_listing s Hl) as (_ & _ & Hc & _).
    rewrite Hc. now destruct (save_to_csv d); rewrite app_nil_r.
Qed.

(** X14: with recording off [extract] leaves the table as it was, however
    the run ends. *)
Theorem extract_without_recording (s : FS) :
  save_to_csv d = false -> csv (fst (extract w d s)) = csv s.
Proof.
  intros Hrec. destruct extract_rows as (rows & _ & H).
  rewrite H, Hrec. apply app_nil_r.
Qed.

(** X15: [extract] called again on the same detector writes the same files
    over themselves, and appends the same rows a second time: the table is
    only reset by [set_save_to_csv]. *)
Theorem extract_twice :
  exists rows, forall s,
    let s1 := fst (extract w d s) in
    let s2 := fst (extract w d s1) in
    csv s1 = csv s ++ rows /\
    csv s2 = csv s ++ rows ++ rows /\
    files s2 = files s1 /\
    snd (extract w d s1) = snd (extract w d s).
Proof.
  destruct (extract_log w d) as (F & rows & o & H).
  exists (if save_to_csv d then rows else []). intros s s1 s2. subst s1 s2.
  destruct (H s) as (Hf1 & Hc1 & Ho1).
  destruct (H (fst (extract w d s))) as (Hf2 & Hc2 & Ho2).
  rewrite Hc2, Hf2, Ho2, Hc1, Hf1, Ho1, <- app_assoc.
  rewrite (assoc_L (∪)), (idemp_L (∪)). auto.
Qed.

(** The lines [extract] prints. *)
Lemma extract_stdout (s : FS) :
  stdout (fst (extract w d s)) =
  stdout s ++
  (if String.eqb (output_directory d) "" then []
   else match os_listdir w (input_directory d) with
        | Some entries =>
            [if (length (image_files_of entries) =? 0)%nat
             then no_images_line d
             else image_count_line d (length (image_files_of entries))]
        | None => []
        end).
Proof.
  destruct (String.eqb_spec (output_directory d) "") as [Hdir | Hdir].
  { rewrite (extract_no_output_directory w d s Hdir). simpl.
    now rewrite app_nil_r. }
  rewrite (extract_unfold w d s Hdir).
  destruct (ensure_output_directory_spec d s Hdir) as (s0 & -> & _ & _ & Ho).
  simpl. destruct (os_listdir w (input_directory d)) as [entries |]; simpl.
  - destruct (length (image_files_of entries) =? 0)%nat; simpl.
    + now rewrite Ho.
    + unfold bind, print. simpl.
      rewrite <- Ho.
      match goal with
      | |- context [process_files w d ?l ?s1] =>
          pose proof (process_files_stdout w d l s1) as Hp;
          destruct (process_files w d l s1) as [s' [[] | e]]
      end; simpl in *; exact Hp.
  - now rewrite Ho, app_nil_r.
Qed.

(** X16: with an output directory whose name is not empty, [extract]
    prints exactly one line when the input directory can be listed,
    whatever happens to the images; it prints nothing when the listing
    fails or the output directory has the empty name. *)
Theorem extract_prints_one_line (s : FS) :
  (output_directory d <> "" ->
   forall entries,
     os_listdir w (input_directory d) = Some entries ->
     stdout (fst (extract w d s)) =
     stdout s ++
     [if (length (image_files_of entries) =? 0)%nat then no_images_line d
      else image_count_line d (length (image_files_of entries))]) /\
  (output_directory d = "" \/ os_listdir w (input_directory d) = None ->
   stdout (fst (extract w d s)) = stdout s).
Proof.
  rewrite extract_stdout.
  destruct (String.eqb_spec (output_directory d) "") as [Hdir | Hdir]; split.
  - intros H. contradiction.
  - intros _. apply app_nil_r.
  - now intros _ entries ->.
  - intros [H | ->]; [contradiction | apply app_nil_r].
Qed.

(** X17: [extract] only adds: no output file disappears, and the table and
    the printed lines keep what they held as a prefix. *)
Theorem extract_append_only (s : FS) :
  dom (files s) ⊆ dom (files (fst (extract w d s))) /\
  csv s `prefix_of` csv (fst (extract w d s)) /\
  stdout s `prefix_of` stdout (fst (extract w d s)).
Proof.
  destruct (extract_log w d) as (F & rows & o & H).
  destruct (H s) as (Hf & Hc & _). rewrite Hf, Hc, extract_stdout.
  split; [| split].
  - rewrite dom_union. apply union_subseteq_r.
  - now eexists.
  - now eexists.
Qed.

(** X18: [extract] removes no directory; with an output directory whose
    name is not empty that directory exists afterwards, even when the input
    directory cannot be listed or an image fails; with the empty name, the
    default, [extract] raises [FileNotFoundError] and changes nothing. *)
Theorem extract_creates_output_directory (s : FS) :
  dirs s ⊆ dirs (fst (extract w d s)) /\
  (output_directory d <> "" ->
   output_directory d ∈ dirs (fst (extract w d s))) /\
  (output_directory d = "" ->
   extract w d s = (s, Raise FileNotFoundError)).
Proof.
  destruct (decide (output_directory d = "")) as [Hdir | Hdir].
  { rewrite (extract_no_output_directory w d s Hdir). simpl.
    split; [reflexivity |]. split; [contradiction | reflexivity]. }
  assert (Hd : dirs (fst (extract w d s)) =
               dirs (fst (ensure_output_directory d s))).
  { rewrite (extract_unfold w d s Hdir). simpl.
    destruct (os_listdir w (input_directory d)) as [entries |];
      [| reflexivity].
    destruct (length (image_files_of entries) =? 0)%nat; [reflexivity |].
    unfold bind, print. simpl.
    match goal with
    | |- context [process_files w d ?l ?s1] =>
        pose proof (runs_process_files w d l s1) as Hp;
        destruct (process_files w d l s1) as [s' [[] | e]]
    end; simpl in *; injection Hp as -> _; now rewrite replay_dirs. }
  rewrite Hd.
  destruct (ensure_output_directory_dirs d s Hdir) as [Hin Hsub].
  split; [exact Hsub |]. split; [intros _; exact Hin | contradiction].
Qed.

(** X19: an image none of whose detections reaches the confidence
    threshold, the single-precision value of 0.35 (in particular an image
    without detections), is a no-op:
    nothing is written, nothing faults, even if some box is flat. *)
Theorem low_confidence_image_untouched (image_path filename : string)
    (image : Image) (s : FS) :
  Image_open w image_path = Some image ->
  (forall result box, In result (model w image) -> In box result ->
                      (conf box < 11744051 # 33554432)%Q) ->
  _process_image w d image_path filename s = (s, Ok tt).
Proof.
  intros Hopen Hlow.
  rewrite (runs_process_image w d image_path filename s).
  unfold trace_image. rewrite Hopen. rewrite trace_each_nil; [reflexivity |].
  intros [i result] Hi. apply enumerate_In, nth_error_In in Hi.
  apply trace_each_nil. intros box Hbox. unfold trace_box.
  change (11744051 # 33554432)%Q with conf_threshold in Hlow.
  now rewrite (proj2 (Qltb_lt _ _) (Hlow result box Hi Hbox)).
Qed.

End Outputs.

Lemma extract_saves_detections_witness :
  exists evs,
    Forall (detection_of w_worked d_example ["cell01.jpg"]) evs /\
    files (fst (extract w_worked d_example fs_empty))
      = write_all evs (files fs_empty) /\
    csv (fst (extract w_worked d_example fs_empty)) =
      csv fs_empty ++ (if save_to_csv d_example then map saved_row evs else []).
Proof.
  exact (extract_saves_detections w_worked d_example ["cell01.jpg"] fs_empty
           eq_refl).
Defined.

Lemma extract_files_sound_witness :
  let p := "wbc/0.81_cell01.jpg_x_170.0_y_180.0_h_200.0_w_200.0_result0.jpg" in
  let c := saved_crop (saved_of d_example image_example "cell01.jpg" 0 box_example
                         150 160 190 200) in
  files fs_empty !! p = Some c \/
  exists entries e,
    os_listdir w_worked (input_directory d_example) = Some entries /\
    detection_of w_worked d_example entries e /\
    saved_path e = p /\ saved_crop e = c.
Proof.
  intros p c. apply (extract_files_sound w_worked d_example fs_empty p c).
  vm_compute. reflexivity.
Defined.

Lemma detection_of_example :
  detection_of w_worked d_example ["cell01.jpg"]
    (saved_of d_example image_example "cell01.jpg" 0 box_example
       150 160 190 200).
Proof.
  exists "cell01.jpg", image_example, 0%nat, [box_example], box_example,
    150%Q, 160%Q, 190%Q, 200%Q.
  repeat split; try reflexivity; left; reflexivity.
Defined.

Lemma extract_complete_witness :
  saved_path (saved_of d_example image_example "cell01.jpg" 0 box_example
                150 160 190 200)
    ∈ dom (files (fst (extract w_worked d_example fs_empty))).
Proof.
  refine (proj1 (extract_complete w_worked d_example ["cell01.jpg"] fs_empty
                   _ eq_refl _ detection_of_example)).
  vm_compute. reflexivity.
Defined.

Lemma extract_ok_only_if_witness :
  output_directory d_example <> "" /\
  forall filename, In filename (image_files_of ["cell01.jpg"]) ->
    exists image,
      Image_open w_worked (path_join (input_directory d_example) filename)
        = Some image /\
      forall result box x1 y1 x2 y2,
        In result (model w_worked image) -> In box result ->
        In (x1, y1, x2, y2) (xyxy box) ->
        (11744051 # 33554432 <= conf box)%Q ->
        py_int y1 <> py_int y2.
Proof.
  refine (extract_ok_only_if w_worked d_example ["cell01.jpg"] fs_empty
            eq_refl _).
  vm_compute. reflexivity.
Defined.

Lemma extract_without_recording_witness :
  csv (fst (extract w_worked d_silent fs_empty)) = csv fs_empty.
Proof. exact (extract_without_recording w_worked d_silent fs_empty eq_refl). Defined.

Lemma extract_prints_one_line_witness :
  stdout (fst (extract w_undecodable d_example fs_empty)) =
  stdout fs_empty ++
  [if (length (image_files_of ["a.jpg"; "b.jpg"]) =? 0)%nat
   then no_images_line d_example
   else image_count_line d_example (length (image_files_of ["a.jpg"; "b.jpg"]))].
Proof.
  refine (proj1 (extract_prints_one_line w_undecodable d_example fs_empty)
            _ _ eq_refl).
  discriminate.
Defined.

Lemma low_confidence_image_untouched_witness :
  _process_image w_faint d_example "Set5/cell01.jpg" "cell01.jpg" fs_empty
    = (fs_empty, Ok tt).
Proof.
  apply (low_confidence_image_untouched w_faint d_example
           "Set5/cell01.jpg" "cell01.jpg" image_example fs_empty).
  - reflexivity.
  - intros result box [<- | []] [<- | []]. reflexivity.
Defined.

(** ** Colliding names *)

(** X20: two accepted detections of the same result group of an image that
    share their centre and the two-decimal text of their confidence are
    saved under the same path with the same content: after both there is
    one file, while with recording on the table has the same row twice. *)
Theorem same_centre_same_file (d : Detector) (image : Image)
    (filename : string) (i : nat) (box box2 : Boxes)
    (left top right bottom left2 top2 right2 bottom2 : Z) (s : FS) :
  right + left = right2 + left2 ->
  bottom + top = bottom2 + top2 ->
  format_2f (conf box) = format_2f (conf box2) ->
  let s1 := fst (save_crop d image filename i box left top right bottom s) in
  let s2 :=
    fst (save_crop d image filename i box2 left2 top2 right2 bottom2 s1) in
  files s2 = files s1 /\
  (save_to_csv d = true -> exists row, csv s2 = csv s ++ [row; row]).
Proof.
  intros Hx Hy Hc s1 s2. subst s1 s2.
  assert (He : saved_of d image filename i box2 left2 top2 right2 bottom2 =
               saved_of d image filename i box left top right bottom).
  { unfold saved_of, box_mid. now rewrite Hx, Hy, Hc. }
  rewrite !save_crop_saved, He. cbn [fst]. unfold replay_one.
  cbn [files csv]. split.
  - apply insert_insert_eq.
  - intros ->. eexists. now rewrite <- app_assoc.
Qed.

Lemma same_centre_same_file_witness :
  let s1 := fst (save_crop d_example image_example "cell01.jpg" 0 box_example
                   150 160 190 200 fs_empty) in
  let s2 := fst (save_crop d_example image_example "cell01.jpg" 0 box_example'
                   140 150 200 210 s1) in
  files s2 = files s1.
Proof.
  intros s1 s2.
  refine (proj1 (same_centre_same_file d_example image_example "cell01.jpg" 0
                   box_example box_example' 150 160 190 200 140 150 200 210
                   fs_empty _ _ _)); reflexivity.
Defined.

(** ** The setters and the script *)

(** X21: for a directory name that is not empty, [set_output_directory]
    leaves the directory in place, removes nothing and touches neither files
    nor table; called again for the same directory it creates nothing and
    prints that the directory is set.  For the empty name it prints that it
    creates the directory and raises [FileNotFoundError]. *)
Theorem set_output_directory_twice (d d2 : Detector) (dir : string) (s : FS) :
  let r1 := set_output_directory d dir s in
  let r2 := set_output_directory d2 dir (fst r1) in
  (dir <> "" ->
   dir ∈ dirs (fst r1) /\ dirs s ⊆ dirs (fst r1) /\
   files (fst r1) = files s /\ csv (fst r1) = csv s /\
   (exists d1, snd r1 = Ok d1 /\ output_directory d1 = dir /\
               input_directory d1 = input_directory d /\
               save_to_csv d1 = save_to_csv d) /\
   dirs (fst r2) = dirs (fst r1) /\
   stdout (fst r2) =
     stdout (fst r1) ++ ["Output directory set to '" +:+ dir +:+ "'"]) /\
  (dir = "" ->
   snd r1 = Raise FileNotFoundError /\
   dirs (fst r1) = dirs s /\ files (fst r1) = files s /\
   csv (fst r1) = csv s /\
   stdout (fst r1) = stdout s ++ ["Creating new output directory ''"]).
Proof.
  intros r1 r2. subst r1 r2. split.
  - intros Hdir.
    unfold set_output_directory, bind, path_exists, print, makedirs, ret.
    destruct (String.eqb_spec dir ""); [contradiction |]. simpl.
    destruct (bool_decide_reflect (dir ∈ dirs s)) as [Hin | Hnin]; simpl.
    + destruct (String.eqb_spec dir ""); [contradiction |]. simpl.
      rewrite bool_decide_eq_true_2 by assumption. simpl.
      repeat split; eauto.
    + destruct (String.eqb_spec dir ""); [contradiction |]. simpl.
      rewrite bool_decide_eq_true_2
        by (apply elem_of_union_l, elem_of_singleton_2; reflexivity).
      simpl. repeat split; eauto.
      * apply elem_of_union_l, elem_of_singleton_2. reflexivity.
      * apply union_subseteq_r.
  - intros ->.
    unfold set_output_directory, bind, path_exists, print, makedirs, ret.
    simpl. auto.
Qed.

Lemma set_output_directory_twice_witness :
  "wbc" ∈ dirs (fst (set_output_directory init "wbc" fs_empty)) /\
  snd (set_output_directory init "" fs_empty) = Raise FileNotFoundError.
Proof.
  split.
  - refine (proj1 (proj1 (set_output_directory_twice init init "wbc" fs_empty)
                     _)).
    discriminate.
  - exact (proj1 (proj2 (set_output_directory_twice init init "" fs_empty)
                    eq_refl)).
Defined.


